(** * Vinegar: the Binary lifecycle (cmd/vinegar/binary.go, cmd/vinegar main)

    A shallow embedding of [Binary.Main], [Binary.HandleProtocolURI],
    [Binary.Run], [RobloxLogFile], [Binary.Tail], [Binary.Command],
    [Binary.RegisterGameMode] and of the goroutines they start, together
    with the properties of the written specification that concern them.

    Go strings are byte sequences: they are embedded as [string] (a list of
    [ascii] bytes).  Go errors are embedded as the inductive [error]; a nil
    error is [None].  Calls into packages that are not part of these
    sources are recorded as [Event]s; what they return is read from a
    [World], the record of the outcomes of one run. *)

From Stdlib Require Import List String Ascii Bool Arith ZArith NArith Lia.
Import ListNotations.
Open Scope string_scope.
Open Scope list_scope.

(* ================================================================== *)
(** ** Package strings *)

Module strings.

(** [strings.Split(s, sep)] for a separator of one byte, the only way
    binary.go calls it ([Split(mime, "+")], [Split(uri, ":")]): the
    pieces of [s] between the occurrences of [sep], in order; a string
    with n separators gives n+1 pieces, the empty string gives one empty
    piece. *)
Fixpoint Split (s : string) (sep : ascii) : list string :=
  match s with
  | EmptyString => [EmptyString]
  | String c s' =>
      if Ascii.eqb c sep then EmptyString :: Split s' sep
      else match Split s' sep with
           | piece :: rest => String c piece :: rest
           | [] => [String c EmptyString]
           end
  end.

(** [strings.Join(elems, sep)]. *)
Fixpoint Join (elems : list string) (sep : string) : string :=
  match elems with
  | [] => EmptyString
  | [e] => e
  | e :: rest => e ++ sep ++ Join rest sep
  end.

(** [strings.HasPrefix(s, prefix)]. *)
Fixpoint HasPrefix (s prefix : string) : bool :=
  match prefix with
  | EmptyString => true
  | String p prefix' =>
      match s with
      | EmptyString => false
      | String c s' => Ascii.eqb c p && HasPrefix s' prefix'
      end
  end.

(** The byte [c] occurs in [s] ([strings.IndexByte(s, c) >= 0]). *)
Fixpoint ContainsByte (s : string) (c : ascii) : bool :=
  match s with
  | EmptyString => false
  | String d s' => Ascii.eqb d c || ContainsByte s' c
  end.

End strings.

(* ================================================================== *)
(** ** Errors *)

(** A Go [error] value.  [ErrClosed] is the sentinel [splash.ErrClosed];
    [ErrNew] is any other error made by a collaborator or by [fmt.Errorf]
    without [%w]; [ErrWrap ctx inner] is [fmt.Errorf(ctx + ": %w", inner)]. *)
Inductive error : Type :=
| ErrClosed : error
| ErrNew : string -> error
| ErrWrap : string -> error -> error.

Fixpoint error_eqb (a b : error) : bool :=
  match a, b with
  | ErrClosed, ErrClosed => true
  | ErrNew m, ErrNew n => String.eqb m n
  | ErrWrap c e, ErrWrap d f => String.eqb c d && error_eqb e f
  | _, _ => false
  end.

Module errors.

(** The chain walk of [errors.Is] for non-nil arguments: [err], or one of
    the errors it wraps, is [target]. *)
Fixpoint chain (err target : error) : bool :=
  error_eqb err target ||
  match err with
  | ErrWrap _ inner => chain inner target
  | _ => false
  end.

(** [errors.Is(err, target)]: when either side is nil the answer is
    [err == target]. *)
Definition Is (err target : option error) : bool :=
  match err, target with
  | None, None => true
  | Some e, Some t => chain e t
  | _, _ => false
  end.

End errors.

(** A fallible result: Go's [(value, error)] pair when the value is only
    used on a nil error. *)
Inductive res (A : Type) : Type :=
| Ok : A -> res A
| Err : error -> res A.
Arguments Ok {A} _.
Arguments Err {A} _.

(* ================================================================== *)
(** ** The collaborating packages *)

(** Modelled from the spec: the package roblox is not among the sources.
    [roblox.BinaryType] is the type tag of a Binary, exactly one of two
    variants. *)
Inductive BinaryType : Type := Player | Studio.

Definition BinaryType_eqb (a b : BinaryType) : bool :=
  match a, b with
  | Player, Player | Studio, Studio => true
  | _, _ => false
  end.

Module config.

(** Modelled from the spec: the package config is not among the sources.
    [config.Binary] is the configuration subset of a Binary (channel,
    launch flags, feature toggles), with the fields binary.go reads or
    writes. *)
Record Binary : Type := mkBinary {
  Channel : string;
  Launcher : string;
  DiscordRPC : bool;
  GameMode : bool;
  WineRoot : string;
  Env : list (string * string)
}.

(** Modelled from the spec: [config.Config], the structured settings,
    with the fields the two files read: the multiple-instances toggle, the
    settings of the splash and one subset per variant. *)
Record Config : Type := mkConfig {
  MultipleInstances : bool;
  SplashEnabled : bool;
  cfgPlayer : Binary;
  cfgStudio : Binary
}.

Definition setChannel (c : string) (b : Binary) : Binary :=
  mkBinary c (Launcher b) (DiscordRPC b) (GameMode b) (WineRoot b) (Env b).

Definition setDiscordRPC (v : bool) (b : Binary) : Binary :=
  mkBinary (Channel b) (Launcher b) v (GameMode b) (WineRoot b) (Env b).

End config.

(** [wine.Cmd], an [exec.Cmd], as far as [Binary.Command] builds it. *)
Record Cmd : Type := mkCmd {
  Path : string;
  Args : list string
}.

(** What the sources leave open: the types of the packages state,
    bootstrapper, bsrpc and wine, and the pure helpers binary.go calls on
    them and on the standard library ([bt.String()], [bt.Executable()],
    [pfx.Dir()], [pfx.Wine(exe, args...)], [filepath.Join],
    [strings.Fields], the variable [BinPrefix]).  The theorems hold for
    every instance. *)
Class Collaborators : Type := {
  roblox_String : BinaryType -> string;
  state_Binary : Type;
  boot_Deployment : Type;
  bsrpc_Activity : Type;
  wine_Prefix : Type;
  Prefix_Dir : wine_Prefix -> string;
  Prefix_Wine : wine_Prefix -> string -> list string -> Cmd;
  filepath_Join : list string -> string;
  strings_Fields : string -> list string;
  Executable : BinaryType -> string;
  BinPrefix : string
}.

(* ================================================================== *)
(** ** Events *)

(** [slog] and [log] levels. *)
Inductive Level : Type := LInfo | LWarn | LError | LPrint | LFatal.

(** The goroutines of binary.go and of main. *)
Inductive Task : Type :=
| TaskSplash | TaskMutexerWait | TaskSignalRelay | TaskPostLaunch.

(** The methods and functions of package main whose invocation the
    specification speaks of. *)
Inductive Func : Type :=
| FnHandleProtocolURI (mime : string)
| FnInstallWebView
| FnSetup
| FnRun (args : list string)
| FnCommand (args : list string)
| FnRobloxLogFile
| FnRegisterGameMode (pid : Z)
| FnTail (name : string).

(** What a task does that the outside can see, in program order. *)
Inductive Event : Type :=
| Invoke (f : Func)
| Log (lvl : Level) (msg : string)
| Exit (code : Z)
| Go (t : Task)
| SignalSelf
| SplashNew | SplashRun | SplashClose
| SplashDialog (msg : string) (cancel : bool)
| SplashSetMessage (msg : string)
| SplashSetDesc (desc : string)
| EnvSetenv (env : list (string * string))
| OpenLogFile (name : string) | CloseLogFile
| SetOutput
| Stat (path : string)
| PrefixInit
| PrefixSetDPI (dpi : Z)
| ActivityConnect | ActivityClose
| HandleRobloxLog (line : string)
| MutexerStart (cmd : Cmd) | MutexerWait
| LauncherPath
| SignalNotify
| CmdStart (cmd : Cmd) | CmdWait
| AppDataDir
| MkdirAll (dir : string)
| NewWatcher | WatcherAdd (dir : string) | WatcherClose
| NewTimer (ns : Z) | TimerFired
| TailFile (name : string)
| Fprintln (line : string)
| DBusConnect
| DBusCall (pid : Z)
| ProcessKill (pid : Z)
| SignalStop.

(* ================================================================== *)
(** ** The Binary and the run monad *)

Section Lifecycle.

Context {C : Collaborators}.

(** Modelled from the spec: [state.State], the persisted state, one
    subset per variant. *)
Record state_State : Type := mkState {
  stPlayer : state_Binary;
  stStudio : state_Binary
}.

(** Modelled from the spec: [splash.Splash], the Status Reporter, as far
    as Main writes it (its [LogPath] field). *)
Record splash_Splash : Type := mkSplash {
  LogPath : string
}.

(** The [Binary] struct.  A pointer field whose target nothing else in
    these files addresses holds the target itself ([None] for nil).
    [Config] and [State] point into [GlobalConfig] and [GlobalState]
    ([bcfg = &cfg.Player], [bstate = &s.Player]): they hold the variant
    whose sub-struct they address, so a write through [b.Config] is a
    write into [b.GlobalConfig]. *)
Record Binary : Type := mkBin {
  Splash : option splash_Splash;
  GlobalState : state_State;
  State : BinaryType;
  GlobalConfig : config.Config;
  Config : BinaryType;
  Alias : string;
  Name : string;
  Dir : string;
  Prefix : wine_Prefix;
  Type_ : BinaryType;
  Deploy : option boot_Deployment;
  Auth : bool;
  Activity : bsrpc_Activity
}.

(** [*b.Config]. *)
Definition Config_load (b : Binary) : config.Binary :=
  match Config b with
  | Player => config.cfgPlayer (GlobalConfig b)
  | Studio => config.cfgStudio (GlobalConfig b)
  end.

(** [*b.State]. *)
Definition State_load (b : Binary) : state_Binary :=
  match State b with
  | Player => stPlayer (GlobalState b)
  | Studio => stStudio (GlobalState b)
  end.

Definition set_GlobalConfig (g : config.Config) (b : Binary) : Binary :=
  mkBin (Splash b) (GlobalState b) (State b) g (Config b) (Alias b) (Name b)
        (Dir b) (Prefix b) (Type_ b) (Deploy b) (Auth b) (Activity b).

Definition set_Splash (s : option splash_Splash) (b : Binary) : Binary :=
  mkBin s (GlobalState b) (State b) (GlobalConfig b) (Config b) (Alias b)
        (Name b) (Dir b) (Prefix b) (Type_ b) (Deploy b) (Auth b) (Activity b).

(** [*b.Config = cb]. *)
Definition Config_store (cb : config.Binary) (b : Binary) : Binary :=
  let g := GlobalConfig b in
  match Config b with
  | Player =>
      set_GlobalConfig
        (config.mkConfig (config.MultipleInstances g) (config.SplashEnabled g)
                         cb (config.cfgStudio g)) b
  | Studio =>
      set_GlobalConfig
        (config.mkConfig (config.MultipleInstances g) (config.SplashEnabled g)
                         (config.cfgPlayer g) cb) b
  end.

(** A computation of package main with receiver [b *Binary]: from the
    Binary before, the result, the Binary after and the events emitted. *)
Definition M (A : Type) : Type := Binary -> res A * Binary * list Event.

Definition ret {A : Type} (a : A) : M A := fun b => (Ok a, b, []).

Definition fail {A : Type} (e : error) : M A := fun b => (Err e, b, []).

Definition bind {A B : Type} (m : M A) (k : A -> M B) : M B :=
  fun b =>
    match m b with
    | (Ok a, b1, t1) =>
        match k a b1 with
        | (r, b2, t2) => (r, b2, t1 ++ t2)
        end
    | (Err e, b1, t1) => (Err e, b1, t1)
    end.

Definition emit (e : Event) : M unit := fun b => (Ok tt, b, [e]).

Definition get : M Binary := fun b => (Ok b, b, []).

Definition modify (f : Binary -> Binary) : M unit := fun b => (Ok tt, f b, []).

(** [defer d] registered just before [m]: [d] runs when [m] returns,
    whatever it returns. *)
Definition defer {A : Type} (d : M unit) (m : M A) : M A :=
  fun b =>
    match m b with
    | (r, b1, t1) =>
        match d b1 with
        | (_, b2, t2) => (r, b2, t1 ++ t2)
        end
    end.

(** [if c { m }]. *)
Definition when (c : bool) (m : M unit) : M unit := if c then m else ret tt.

(** A call that can only fail: the event, then the outcome. *)
Definition call (e : Event) (outcome : option error) (ctx : string) : M unit :=
  bind (emit e) (fun _ =>
    match outcome with
    | Some err => fail (ErrWrap ctx err)
    | None => ret tt
    end).

(** [for _, x := range xs { body x }]. *)
Fixpoint range {A : Type} (xs : list A) (body : A -> M unit) : M unit :=
  match xs with
  | [] => ret tt
  | x :: rest => bind (body x) (fun _ => range rest body)
  end.

Definition result {A : Type} (o : res A * Binary * list Event) : res A :=
  fst (fst o).

Definition after {A : Type} (o : res A * Binary * list Event) : Binary :=
  snd (fst o).

Definition events {A : Type} (o : res A * Binary * list Event) : list Event :=
  snd o.

End Lifecycle.

Declare Scope go_scope.
Delimit Scope go_scope with go.
Notation "x <- m ;; k" := (bind m (fun x => k))
  (at level 61, m at next level, right associativity) : go_scope.
Notation "m ;; k" := (bind m (fun _ => k))
  (at level 61, right associativity) : go_scope.
Open Scope go_scope.

(* ================================================================== *)
(** ** binary.go *)

(** [const timeout = 6 * time.Second], a [time.Duration] in nanoseconds. *)
Definition time_Second : Z := 1000000000.
Definition timeout : Z := 6 * time_Second.

Definition DialogNoAVX : string :=
  "Warning: Your CPU does not support AVX. While some people may be able to run without it, most are not able to. VinegarHQ cannot provide support for your installation. Continue?".

Module fsnotify.

(** [fsnotify.Op], a bit mask; [Create] is its lowest bit. *)
Definition Op : Type := N.
Definition Create : Op := 1%N.

(** [o.Has(h)]. *)
Definition Has (o h : Op) : bool := N.eqb (N.land o h) h.

End fsnotify.

(** What the watcher hands to the select loop of [RobloxLogFile]: a value
    on [w.Events] or a value on [w.Errors]. *)
Inductive Occurrence : Type :=
| FsEvent (name : string) (op : fsnotify.Op)
| FsError (e : error).

(** The Go conversion [int32(x)] of an [int]. *)
Definition int32 (x : Z) : Z := ((x + 2 ^ 31) mod 2 ^ 32 - 2 ^ 31)%Z.

(** How a goroutine body ends: it returns, or it never leaves a loop. *)
Inductive Ending : Type := Returned | Spinning.

Section Program.

Context {C : Collaborators}.

(** The outcomes of the calls Main itself makes.  [CPU_AVX] is
    [sysinfo.CPU.AVX] and [FirstRun] the command-line flag of that name.
    [InstallWebView] and [Setup] are methods of [*Binary] whose files are
    not among the sources: the world gives the error they return and what
    they do to the Binary. *)
Record MainWorld : Type := mkMainWorld {
  LogFile_err : option error;
  LogFile_name : string;
  Stat_err : option error;
  CPU_AVX : bool;
  FirstRun : bool;
  Prefix_Init_err : option error;
  Prefix_SetDPI_err : option error;
  InstallWebView_err : option error;
  InstallWebView_upd : Binary -> Binary;
  Setup_err : option error;
  Setup_upd : Binary -> Binary
}.

(** The outcomes of the calls Run and Command make. *)
Record RunWorld : Type := mkRunWorld {
  Connect_err : option error;
  mutexer_Start_err : option error;
  mutexer_Wait_err : option error;
  LauncherPath_res : res string;
  cmd_Start_err : option error;
  cmd_Wait_err : option error;
  Pid : Z
}.

(** The outcomes of the calls of the post-launch task.  [occurrences]
    lists what the watcher delivers, in order of arrival, each with the
    time in nanoseconds since the timer was started; [Lines] are the lines
    the tail delivers before its channel is closed. *)
Record WatchWorld : Type := mkWatchWorld {
  AppDataDir_res : res string;
  MkdirAll_err : option error;
  NewWatcher_err : option error;
  Watcher_Add_err : option error;
  occurrences : list (Z * Occurrence);
  DBus_Connect_err : option error;
  DBus_Call_err : option error;
  DBus_IsNoObject : error -> bool;
  TailFile_err : option error;
  Lines : list string;
  HandleRobloxLog_err : string -> option error
}.

Record World : Type := mkWorld {
  wMain : MainWorld;
  wRun : RunWorld;
  wWatch : WatchWorld
}.

(** *** HandleProtocolURI (binary.go 195-210) *)

(** Lines 198-208, the body of the loop over the sub-tokens. *)
Definition HandleProtocolURI_token (uri : string) : M unit :=
  let kv := strings.Split uri ":" in
  match kv with
  | [k; c] =>
      if String.eqb k "channel" then
        if String.eqb c EmptyString then ret tt
        else
          emit (Log LWarn "Roblox has requested a user channel, changing...") ;;
          b <- get ;;
          modify (Config_store (config.setChannel c (Config_load b)))
      else ret tt
  | _ => ret tt
  end.

Definition HandleProtocolURI (mime : string) : M unit :=
  emit (Invoke (FnHandleProtocolURI mime)) ;;
  let uris := strings.Split mime "+" in
  range uris HandleProtocolURI_token.

(** *** Command (binary.go 357-375) *)

(** Lines 358-360: the argument list handed to [b.Prefix.Wine]. *)
Definition Command_args (args : list string) : list string :=
  if strings.HasPrefix (strings.Join args " ") "roblox-studio:1" then
    match args with
    | a :: _ => ["-protocolString"; a]
    | [] => []  (* args[0] on an empty list; the prefix test is false there *)
    end
  else args.

Definition Command (w : RunWorld) (args : list string) : M Cmd :=
  emit (Invoke (FnCommand args)) ;;
  b <- get ;;
  let args := Command_args args in
  let cmd := Prefix_Wine (Prefix b) (filepath_Join [Dir b; Executable (Type_ b)]) args in
  let launcher := strings_Fields (config.Launcher (Config_load b)) in
  if Nat.leb 1 (List.length launcher) then
    let cmd := mkCmd (Path cmd) (launcher ++ Args cmd) in
    emit LauncherPath ;;
    match LauncherPath_res w with
    | Err err => fail (ErrWrap "bad launcher" err)
    | Ok p => ret (mkCmd p (Args cmd))
    end
  else ret cmd.

(** *** RobloxLogFile (binary.go 299-337) *)

(** The select loop of lines 325-336.  An occurrence that arrives before
    the timer expires is received; the timer's channel is received once
    nothing else arrives before it expires. *)
Fixpoint RobloxLogFile_wait (occ : list (Z * Occurrence))
  : (string * option error) * list Event :=
  match occ with
  | [] => ((EmptyString, Some (ErrNew "roblox log file not found after 6s")), [TimerFired])
  | (t, o) :: rest =>
      if (t <? timeout)%Z then
        match o with
        | FsEvent name op =>
            if fsnotify.Has op fsnotify.Create then ((name, None), [])
            else RobloxLogFile_wait rest
        | FsError err =>
            let (r, evs) := RobloxLogFile_wait rest in
            (r, Log LError "Recieved fsnotify watcher error" :: evs)
        end
      else ((EmptyString, Some (ErrNew "roblox log file not found after 6s")), [TimerFired])
  end.

Definition RobloxLogFile (w : WatchWorld) (pfx : wine_Prefix)
  : (string * option error) * list Event :=
  match AppDataDir_res w with
  | Err err => ((EmptyString, Some (ErrWrap "get appdata" err)), [Invoke FnRobloxLogFile; AppDataDir])
  | Ok ad =>
      let dir := filepath_Join [ad; "Local"; "Roblox"; "logs"] in
      match MkdirAll_err w with
      | Some err =>
          ((EmptyString, Some (ErrWrap "create roblox log dir" err)),
           [Invoke FnRobloxLogFile; AppDataDir; MkdirAll dir])
      | None =>
          match NewWatcher_err w with
          | Some err =>
              ((EmptyString, Some (ErrWrap "make fsnotify watcher" err)),
               [Invoke FnRobloxLogFile; AppDataDir; MkdirAll dir; NewWatcher])
          | None =>
              match Watcher_Add_err w with
              | Some err =>
                  ((EmptyString, Some (ErrWrap "watch roblox log dir" err)),
                   [Invoke FnRobloxLogFile; AppDataDir; MkdirAll dir; NewWatcher;
                    WatcherAdd dir; WatcherClose])
              | None =>
                  let (r, evs) := RobloxLogFile_wait (occurrences w) in
                  (r, [Invoke FnRobloxLogFile; AppDataDir; MkdirAll dir; NewWatcher;
                       WatcherAdd dir; NewTimer timeout] ++ evs ++ [WatcherClose])
              end
          end
      end
  end.

(** *** RegisterGameMode (binary.go 377-391) *)

Definition RegisterGameMode (w : WatchWorld) (pid : Z) : M unit :=
  emit (Invoke (FnRegisterGameMode pid)) ;;
  emit DBusConnect ;;
  match DBus_Connect_err w with
  | Some _ => emit (Log LError "Failed to connect to D-Bus")
  | None =>
      emit (DBusCall pid) ;;
      match DBus_Call_err w with
      | Some err =>
          if negb (DBus_IsNoObject w err)
          then emit (Log LError "Failed to register to GameMode")
          else ret tt
      | None => ret tt
      end
  end.

(** *** Tail (binary.go 339-355) *)

(** Lines 347-353, the body of the loop over the tailed lines. *)
Definition Tail_line (w : WatchWorld) (line : string) : M unit :=
  emit (Fprintln line) ;;
  b <- get ;;
  when (config.DiscordRPC (Config_load b))
    (emit (HandleRobloxLog line) ;;
     match HandleRobloxLog_err w line with
     | Some _ => emit (Log LError "Activity Roblox log handle failed")
     | None => ret tt
     end).

Definition Tail (w : WatchWorld) (name : string) : M unit :=
  emit (Invoke (FnTail name)) ;;
  emit (TailFile name) ;;
  match TailFile_err w with
  | Some _ => emit (Log LError "Could not tail Roblox log file")
  | None => range (Lines w) (Tail_line w)
  end.

(** *** Run (binary.go 212-297) *)

(** Runs [m]; an error it returns is wrapped as [fmt.Errorf(ctx + ": %w", err)]. *)
Definition wrapErr {A : Type} (ctx : string) (m : M A) : M A :=
  fun b =>
    match m b with
    | (Err e, b1, t1) => (Err (ErrWrap ctx e), b1, t1)
    | o => o
    end.

Definition emits (evs : list Event) : M unit := fun b => (Ok tt, b, evs).

(** Lines 213-220; the result tells whether [b.Activity.Close] was deferred. *)
Definition Run_connect (w : RunWorld) : M bool :=
  b <- get ;;
  if config.DiscordRPC (Config_load b) then
    emit ActivityConnect ;;
    match Connect_err w with
    | Some _ =>
        emit (Log LError "Could not connect to Discord RPC") ;;
        b <- get ;;
        modify (Config_store (config.setDiscordRPC false (Config_load b))) ;;
        ret false
    | None => ret true
    end
  else ret false.

(** Line 226: the command of the mutex-holder helper. *)
Definition mutexer_Cmd (b : Binary) : Cmd :=
  Prefix_Wine (Prefix b) (filepath_Join [BinPrefix; "robloxmutexer.exe"]) [].

(** Lines 222-235. *)
Definition Run_mutexer (w : RunWorld) : M unit :=
  b <- get ;;
  when (config.MultipleInstances (GlobalConfig b) && BinaryType_eqb (Type_ b) Player)
    (emit (Log LInfo "Running robloxmutexer") ;;
     let mutexer := mutexer_Cmd b in
     call (MutexerStart mutexer) (mutexer_Start_err w) "start robloxmutexer" ;;
     emit (Go TaskMutexerWait)).

(** [cmd.Run()]: Start, then Wait. *)
Definition cmd_Run (w : RunWorld) (cmd : Cmd) : M unit :=
  emit (CmdStart cmd) ;;
  match cmd_Start_err w with
  | Some err => fail err
  | None =>
      emit CmdWait ;;
      match cmd_Wait_err w with
      | Some err => fail err
      | None => ret tt
      end
  end.

(** Lines 222-296: the helper, the command, the goroutines and the wait
    for the child. *)
Definition Run_launch (w : RunWorld) (args : list string) : M unit :=
  Run_mutexer w ;;
  b <- get ;;
  cmd <- wrapErr (roblox_String (Type_ b) ++ " command")%string (Command w args) ;;
  emit SignalNotify ;;
  emit (Go TaskSignalRelay) ;;
  emit (Log LInfo "Running Binary") ;;
  emit (SplashSetMessage ("Launching " ++ Alias b)%string) ;;
  emit (Go TaskPostLaunch) ;;
  wrapErr "roblox process" (cmd_Run w cmd).

Definition Run (w : RunWorld) (args : list string) : M unit :=
  emit (Invoke (FnRun args)) ;;
  closeLater <- Run_connect w ;;
  defer (when closeLater (emit ActivityClose)) (Run_launch w args).

(** The goroutine of lines 230-234. *)
Definition Run_mutexerTask (w : RunWorld) : list Event :=
  MutexerWait ::
  match mutexer_Wait_err w with
  | Some _ => [Log LError "robloxmutexer returned too early"]
  | None => []
  end.

(** The goroutine of lines 265-290.  It shares [b] with Run; after the
    [go] statement neither Run nor Main writes to [b], so the task is run
    on the Binary as it is when the task is started.  When [cmd.Start]
    failed, [cmd.Process] stays nil and the loop of lines 267-271 never
    ends. *)
Definition Run_postLaunchTask (w : World) : M Ending :=
  match cmd_Start_err (wRun w) with
  | Some _ => ret Spinning
  | None =>
      b <- get ;;
      let (r, evs) := RobloxLogFile (wWatch w) (Prefix b) in
      emits evs ;;
      match r with
      | (_, Some _) =>
          emit (Log LError "Failed to find Roblox log file") ;;
          ret Returned
      | (lf, None) =>
          emit SplashClose ;;
          b <- get ;;
          when (config.GameMode (Config_load b))
            (RegisterGameMode (wWatch w) (int32 (Pid (wRun w)))) ;;
          Tail (wWatch w) lf ;;
          ret Returned
      end
  end.

(** *** Main (binary.go 106-193) *)

(** The goroutine of lines 134-150; [err] is what [b.Splash.Run] returns. *)
Definition Main_splashTask (err : option error) : list Event :=
  SplashRun ::
  if errors.Is (Some ErrClosed) err then
    [Log LWarn "Splash window closed!"; SignalSelf]
  else
    match err with
    | Some _ => [Log LFatal "splash: %s"; Exit 1]
    | None => []
    end.

(** Lines 152-175, the body of [if firstRun || FirstRun]. *)
Definition Main_init (w : MainWorld) : M unit :=
  emit (Log LInfo "Initializing wineprefix") ;;
  emit (SplashSetMessage "Initializing wineprefix") ;;
  b <- get ;;
  let ctx := ("failed to init " ++ roblox_String (Type_ b) ++ " prefix")%string in
  match Type_ b with
  | Player => call PrefixInit (Prefix_Init_err w) ctx
  | Studio => call (PrefixSetDPI 97) (Prefix_SetDPI_err w) ctx
  end ;;
  emit (Invoke FnInstallWebView) ;;
  modify (InstallWebView_upd w) ;;
  match InstallWebView_err w with
  | Some err => fail (ErrWrap "failed to install webview" err)
  | None => ret tt
  end.

(** Lines 177-180. *)
Definition Main_protocol (args : list string) : M unit :=
  match args with
  | [mime] => HandleProtocolURI mime
  | _ => ret tt
  end.

(** Lines 184-186. *)
Definition Main_setup (w : MainWorld) : M unit :=
  emit (Invoke FnSetup) ;;
  modify (Setup_upd w) ;;
  match Setup_err w with
  | Some err => fail (ErrWrap "failed to setup roblox" err)
  | None => ret tt
  end.

(** The deferred function of lines 120-122. *)
Definition Main_setLogPath (name : string) : M unit :=
  modify (fun b =>
    match Splash b with
    | Some _ => set_Splash (Some (mkSplash name)) b
    | None => b
    end).

Definition firstRun (w : MainWorld) : bool :=
  match Stat_err w with Some _ => true | None => false end.

(** Lines 124-175: the first-run test, the AVX warning, the splash
    goroutine and the initialization. *)
Definition Main_firstRun (m : MainWorld) : M unit :=
  b <- get ;;
  emit (Stat (filepath_Join [Prefix_Dir (Prefix b); "drive_c"; "windows"])) ;;
  when (firstRun m && negb (CPU_AVX m))
    (emit (SplashDialog DialogNoAVX false) ;;
     emit (Log LWarn "Running roblox without AVX, Roblox will most likely fail to run!")) ;;
  emit (Go TaskSplash) ;;
  when (firstRun m || FirstRun m) (Main_init m).

(** Lines 182-192. *)
Definition Main_launch (w : World) (args : list string) : M unit :=
  b <- get ;;
  emit (SplashSetDesc (config.Channel (Config_load b))) ;;
  Main_setup (wMain w) ;;
  wrapErr "failed to run roblox" (Run (wRun w) args).

Definition Main (w : World) (args : list string) : M unit :=
  let m := wMain w in
  emit SplashNew ;;
  modify (set_Splash (Some (mkSplash EmptyString))) ;;
  b <- get ;;
  emit (EnvSetenv (config.Env (Config_load b))) ;;
  emit (OpenLogFile (roblox_String (Type_ b))) ;;
  match LogFile_err m with
  | Some err => fail (ErrWrap "create log file" err)
  | None =>
      defer (emit CloseLogFile)
        (emit SetOutput ;;
         defer (Main_setLogPath (LogFile_name m))
           (Main_firstRun m ;;
            Main_protocol args ;;
            Main_launch w args))
  end.

(** *** The splash goroutine of main (lines 105-113 of the main file) *)

Definition main_splashTask (err : option error) : list Event :=
  SplashRun ::
  match err with
  | Some _ => [Log LPrint "splash: %s"]
  | None => []
  end ++ [SignalSelf].

End Program.

(* ================================================================== *)
(** ** The signal relay of Run (binary.go 242-260) *)

Module relay.

Inductive Signal : Type := SIGINT | SIGTERM | SIGHUP.

(** [signal.Notify(c, os.Interrupt, syscall.SIGTERM)]. *)
Definition notified (s : Signal) : bool :=
  match s with
  | SIGINT | SIGTERM => true
  | SIGHUP => false
  end.

(** Where the goroutine of lines 245-260 stands. *)
Inductive Pc : Type :=
| AtRecv      (* blocked in [s := <-c] *)
| AtCheck     (* before [if cmd.ProcessState == nil] *)
| AtStop      (* before [signal.Stop(c)] *)
| Finished
| Panicked.   (* [cmd.Process.Pid] on a nil [cmd.Process]: the goroutine is gone *)

(** The host process as the relay sees it.  [notify]: [c] is registered
    with package signal; [chan]: the one-slot buffer of [c]; [Process]
    and [ProcessState]: the fields of [cmd] ([ProcessState] is [true]
    once it is non-nil, that is once the child has exited and was waited
    for); [defaulted]: the signals that were left to the default
    disposition of the operating system; [out]: the events of the
    goroutine. *)
Record Host : Type := mkHost {
  notify : bool;
  chan : option Signal;
  pc : Pc;
  Process : option Z;
  ProcessState : bool;
  defaulted : list Signal;
  out : list Event
}.

Inductive Action : Type :=
| Deliver (s : Signal)   (* the operating system delivers [s] to the host *)
| Started (pid : Z)      (* [cmd.Start] has set [cmd.Process] *)
| Exited                 (* [cmd.Wait] has set [cmd.ProcessState] *)
| Relay.                 (* the goroutine takes its next step *)

(** The state after [signal.Notify] and the [go] statement. *)
Definition armed (process : option Z) : Host :=
  mkHost true None AtRecv process false [] [].

Definition step (h : Host) (a : Action) : Host :=
  match a with
  | Deliver s =>
      if notify h && notified s then
        match chan h with
        | None => mkHost (notify h) (Some s) (pc h) (Process h) (ProcessState h)
                         (defaulted h) (out h)
        | Some _ => h   (* the send does not block: the signal is dropped *)
        end
      else mkHost (notify h) (chan h) (pc h) (Process h) (ProcessState h)
                  (defaulted h ++ [s]) (out h)
  | Started pid =>
      match Process h with
      | None => mkHost (notify h) (chan h) (pc h) (Some pid) (ProcessState h)
                       (defaulted h) (out h)
      | Some _ => h   (* [cmd.Start] on a started command changes nothing *)
      end
  | Exited =>
      mkHost (notify h) (chan h) (pc h) (Process h) true (defaulted h) (out h)
  | Relay =>
      match pc h with
      | AtRecv =>
          match chan h with
          | Some _ => mkHost (notify h) None AtCheck (Process h) (ProcessState h)
                             (defaulted h) (out h ++ [Log LWarn "Recieved signal"])
          | None => h
          end
      | AtCheck =>
          if ProcessState h then
            mkHost (notify h) (chan h) AtStop (Process h) (ProcessState h)
                   (defaulted h) (out h)
          else
            match Process h with
            | Some pid =>
                mkHost (notify h) (chan h) AtStop (Process h) (ProcessState h)
                       (defaulted h)
                       (out h ++ [Log LWarn "Killing Roblox"; ProcessKill pid])
            | None =>
                mkHost (notify h) (chan h) Panicked (Process h) (ProcessState h)
                       (defaulted h) (out h)
            end
      | AtStop =>
          mkHost false (chan h) Finished (Process h) (ProcessState h)
                 (defaulted h) (out h ++ [SignalStop])
      | Finished | Panicked => h
      end
  end.

(** The host after a schedule of actions. *)
Definition run (h : Host) (acts : list Action) : Host := fold_left step acts h.

Definition is_kill (e : Event) : bool :=
  match e with ProcessKill _ => true | _ => false end.

(** How many kill requests the goroutine has sent. *)
Definition kills (h : Host) : nat := List.length (filter is_kill (out h)).

End relay.

(* ================================================================== *)
(** ** The vocabulary of the specification *)

(** A sub-token of a protocol URI that overrides the channel with [c]:
    exactly two parts around one [:], the key [channel], a non-empty
    value. *)
Definition is_channel_token (t c : string) : Prop :=
  t = ("channel:" ++ c)%string /\ c <> EmptyString /\
  strings.ContainsByte c ":" = false.

(** A sub-token that overrides nothing. *)
Definition ignored (t : string) : Prop := forall c, ~ is_channel_token t c.

(** The channel a sub-token asks for, as lines 198-204 decide it. *)
Definition token_channel (uri : string) : option string :=
  match strings.Split uri ":" with
  | [k; c] =>
      if String.eqb k "channel" then
        if String.eqb c EmptyString then None else Some c
      else None
  | _ => None
  end.

(** The channel after the sub-tokens [uris], starting from [cur]. *)
Fixpoint fold_channel (uris : list string) (cur : string) : string :=
  match uris with
  | [] => cur
  | u :: rest =>
      fold_channel rest (match token_channel u with Some c => c | None => cur end)
  end.

Definition no_plus (t : string) : Prop := strings.ContainsByte t "+" = false.

(** The events of one kind in a trace, in order. *)
Definition is_Invoke_HandleProtocolURI (e : Event) : bool :=
  match e with Invoke (FnHandleProtocolURI _) => true | _ => false end.

Definition is_Invoke_RegisterGameMode (e : Event) : bool :=
  match e with Invoke (FnRegisterGameMode _) => true | _ => false end.

Definition is_Invoke_Tail (e : Event) : bool :=
  match e with Invoke (FnTail _) => true | _ => false end.

Definition is_SplashClose (e : Event) : bool :=
  match e with SplashClose => true | _ => false end.


Definition is_init_or_install (e : Event) : bool :=
  match e with
  | PrefixInit | PrefixSetDPI _ | Invoke FnInstallWebView => true
  | _ => false
  end.

Definition is_Invoke_InstallWebView (e : Event) : bool :=
  match e with Invoke FnInstallWebView => true | _ => false end.

Definition is_CmdStart (e : Event) : bool :=
  match e with CmdStart _ => true | _ => false end.

Definition is_Go_MutexerWait (e : Event) : bool :=
  match e with Go TaskMutexerWait => true | _ => false end.

Definition is_Setup_or_Run (e : Event) : bool :=
  match e with
  | Invoke FnSetup | Invoke (FnRun _) => true
  | _ => false
  end.

(** The initialization call of a variant and its outcome. *)
Definition init_call (bt : BinaryType) : Event :=
  match bt with
  | Player => PrefixInit
  | Studio => PrefixSetDPI 97
  end.

Definition init_err {C : Collaborators} (m : MainWorld) (bt : BinaryType) : option error :=
  match bt with
  | Player => Prefix_Init_err m
  | Studio => Prefix_SetDPI_err m
  end.

(** Main needs the initialization: the marker directory is absent or the
    flag is set. *)
Definition needs_init {C : Collaborators} (m : MainWorld) : bool :=
  firstRun m || FirstRun m.

(** Main gets as far as line 177: the log file was created and, where
    the initialization was needed, both of its steps succeeded. *)
Definition reaches_protocol {C : Collaborators} (m : MainWorld) (bt : BinaryType) : bool :=
  match LogFile_err m with
  | Some _ => false
  | None =>
      negb (needs_init m) ||
      match init_err m bt, InstallWebView_err m with
      | None, None => true
      | _, _ => false
      end
  end.

(** The events of lines 124-150. *)
Definition firstRun_events {C : Collaborators} (m : MainWorld) (b : Binary) : list Event :=
  Stat (filepath_Join [Prefix_Dir (Prefix b); "drive_c"; "windows"]) ::
  (if firstRun m && negb (CPU_AVX m)
   then [SplashDialog DialogNoAVX false;
         Log LWarn "Running roblox without AVX, Roblox will most likely fail to run!"]
   else []) ++ [Go TaskSplash].

(** The helper of lines 222-235 is started: multiple instances are
    configured and the variant is Player. *)
Definition wants_mutexer {C : Collaborators} (b : Binary) : bool :=
  config.MultipleInstances (GlobalConfig b) && BinaryType_eqb (Type_ b) Player.

(** The same run, with another outcome of [mutexer.Wait]. *)
Definition with_mutexer_Wait (e : option error) (w : RunWorld) : RunWorld :=
  mkRunWorld (Connect_err w) (mutexer_Start_err w) e (LauncherPath_res w)
             (cmd_Start_err w) (cmd_Wait_err w) (Pid w).

(** The events of Command. *)
Definition Command_events {C : Collaborators} (args : list string) (b : Binary)
  : list Event :=
  Invoke (FnCommand args) ::
  (if Nat.leb 1 (List.length (strings_Fields (config.Launcher (Config_load b))))
   then [LauncherPath] else []).

(** The events of lines 242-264, between Command and [cmd.Run]. *)
Definition arm_events {C : Collaborators} (b : Binary) : list Event :=
  [SignalNotify; Go TaskSignalRelay; Log LInfo "Running Binary";
   SplashSetMessage ("Launching " ++ Alias b)%string; Go TaskPostLaunch].

(** [cmd.Run()]: its error and its events. *)
Definition cmd_Run_err (w : RunWorld) : option error :=
  match cmd_Start_err w with
  | Some e => Some e
  | None => cmd_Wait_err w
  end.

Definition cmd_Run_events (w : RunWorld) (cmd : Cmd) : list Event :=
  match cmd_Start_err w with
  | Some _ => [CmdStart cmd]
  | None => [CmdStart cmd; CmdWait]
  end.

(** [e1] occurs in the trace and [e2] occurs after it. *)
Definition precedes (e1 e2 : Event) (tr : list Event) : Prop :=
  exists l1 l2, tr = l1 ++ e1 :: l2 /\ In e2 l2.

(** A collaborator instance to evaluate the definitions on. *)
Definition sampleCollaborators : Collaborators :=
  {| roblox_String := fun bt =>
       match bt with
       | Player => "Player"
       | Studio => "Studio"
       end;
     state_Binary := list string;
     boot_Deployment := string;
     bsrpc_Activity := unit;
     wine_Prefix := string;
     Prefix_Dir := fun pfx => pfx;
     Prefix_Wine := fun pfx exe args => mkCmd "wine" ("wine" :: exe :: args);
     filepath_Join := fun elems => strings.Join elems "/";
     strings_Fields := fun s => match s with EmptyString => [] | _ => [s] end;
     Executable := fun bt =>
       match bt with
       | Player => "RobloxPlayerBeta.exe"
       | Studio => "RobloxStudioBeta.exe"
       end;
     BinPrefix := "/usr/lib/vinegar" |}.

Definition sampleConfigBinary (rpc gamemode : bool) : config.Binary :=
  config.mkBinary "LIVE" EmptyString rpc gamemode EmptyString [].

(** A Player binary as [NewBinary] builds it. *)
Definition sampleBinary (multi rpc gamemode : bool) : @Binary sampleCollaborators :=
  @mkBin sampleCollaborators None (@mkState sampleCollaborators [] []) Player
        (config.mkConfig multi true (sampleConfigBinary rpc gamemode)
                         (sampleConfigBinary rpc gamemode))
        Player "Player" "RobloxPlayerBeta.exe" "/versions/v1" "/prefixes/player"
        Player None false tt.

(** A world in which every call succeeds, the prefix is initialized and
    the log file [/ad/Local/Roblox/logs/0.log] is created after 2 s. *)
Definition calmMain : @MainWorld sampleCollaborators :=
  mkMainWorld None "/logs/player.log" None true false None None None
              (fun b => b) None (fun b => b).

Definition calmRun : RunWorld :=
  mkRunWorld None None None (Ok "/usr/bin/gamescope") None None 4242.

Definition calmWatch : WatchWorld :=
  mkWatchWorld (Ok "/ad") None None None
               [(2 * time_Second, FsEvent "/ad/Local/Roblox/logs/0.log" fsnotify.Create)%Z]
               None None (fun _ => false) None ["line one"; "line two"]
               (fun _ => None).

Definition calmWorld : @World sampleCollaborators := mkWorld calmMain calmRun calmWatch.

(** The calm world on a prefix that was never initialized. *)
Definition firstRunMain : @MainWorld sampleCollaborators :=
  mkMainWorld None "/logs/player.log" (Some (ErrNew "no such file or directory"))
              true false None None None (fun b => b) None (fun b => b).

Definition firstRunWorld : @World sampleCollaborators :=
  mkWorld firstRunMain calmRun calmWatch.

(** A never initialized prefix, and the log file cannot be created. *)
Definition noLogFileWorld : @World sampleCollaborators :=
  mkWorld (mkMainWorld (Some (ErrNew "permission denied")) EmptyString
                       (Some (ErrNew "no such file or directory"))
                       true false None None None (fun b => b) None (fun b => b))
          calmRun calmWatch.

(** A never initialized prefix whose initialization fails. *)
Definition initFailsWorld : @World sampleCollaborators :=
  mkWorld (mkMainWorld None "/logs/player.log"
                       (Some (ErrNew "no such file or directory"))
                       true false (Some (ErrNew "exit status 1")) None None
                       (fun b => b) None (fun b => b))
          calmRun calmWatch.

(** The helper of lines 222-235 cannot be started. *)
Definition mutexerFailsRun : RunWorld :=
  mkRunWorld None (Some (ErrNew "exec: wine: executable file not found"))
             None (Ok "/usr/bin/gamescope") None None 4242.

Definition is_SignalSelf (e : Event) : bool :=
  match e with SignalSelf => true | _ => false end.

(** An occurrence is the creation of a file. *)
Definition is_create (o : Z * Occurrence) : bool :=
  match snd o with
  | FsEvent _ op => fsnotify.Has op fsnotify.Create
  | FsError _ => false
  end.

(** An occurrence is a watcher error. *)
Definition is_watcher_error (o : Z * Occurrence) : bool :=
  match snd o with
  | FsEvent _ _ => false
  | FsError _ => true
  end.

(** An occurrence arrives before the timer expires. *)
Definition in_time (o : Z * Occurrence) : Prop := (fst o < timeout)%Z.

(** The log lines of the select loop, one per watcher error. *)
Definition watcher_error_logs (occ : list (Z * Occurrence)) : list Event :=
  map (fun _ => Log LError "Recieved fsnotify watcher error")
      (filter is_watcher_error occ).

Definition timeout_error : error := ErrNew "roblox log file not found after 6s".

Definition is_Log_or_Timer (e : Event) : bool :=
  match e with Log _ _ | TimerFired => true | _ => false end.

(** The calm watch world with a watcher error and a write event before
    the log file is created. *)
Definition noisyWatch : WatchWorld :=
  mkWatchWorld (Ok "/ad") None None None
               [(1 * time_Second, FsError (ErrNew "inotify: queue overflow"));
                (1 * time_Second, FsEvent "/ad/Local/Roblox/logs/old.log" 2%N);
                (2 * time_Second, FsEvent "/ad/Local/Roblox/logs/0.log" fsnotify.Create);
                (3 * time_Second, FsEvent "/ad/Local/Roblox/logs/1.log" fsnotify.Create)]%Z
               None None (fun _ => false) None ["line one"; "line two"]
               (fun _ => None).

(** The log file is created a second after the timer has expired. *)
Definition lateWatch : WatchWorld :=
  mkWatchWorld (Ok "/ad") None None None
               [(1 * time_Second, FsError (ErrNew "inotify: queue overflow"));
                (7 * time_Second, FsEvent "/ad/Local/Roblox/logs/0.log" fsnotify.Create)]%Z
               None None (fun _ => false) None ["line one"; "line two"]
               (fun _ => None).

(** The events of Tail on a tailed file, given whether activity reporting
    is on. *)
Definition Tail_line_events (w : WatchWorld) (rpc : bool) (line : string)
  : list Event :=
  Fprintln line ::
  if rpc then
    HandleRobloxLog line ::
    match HandleRobloxLog_err w line with
    | Some _ => [Log LError "Activity Roblox log handle failed"]
    | None => []
    end
  else [].

Definition Tail_events (w : WatchWorld) (rpc : bool) (name : string) : list Event :=
  Invoke (FnTail name) :: TailFile name ::
  match TailFile_err w with
  | Some _ => [Log LError "Could not tail Roblox log file"]
  | None => flat_map (Tail_line_events w rpc) (Lines w)
  end.

(** The events of RegisterGameMode. *)
Definition RegisterGameMode_events (w : WatchWorld) (pid : Z) : list Event :=
  Invoke (FnRegisterGameMode pid) :: DBusConnect ::
  match DBus_Connect_err w with
  | Some _ => [Log LError "Failed to connect to D-Bus"]
  | None =>
      DBusCall pid ::
      match DBus_Call_err w with
      | Some err =>
          if negb (DBus_IsNoObject w err)
          then [Log LError "Failed to register to GameMode"]
          else []
      | None => []
      end
  end.

Definition is_Go_PostLaunch (e : Event) : bool :=
  match e with Go TaskPostLaunch => true | _ => false end.

(** A process id as the operating system hands it out: it fits the
    32-bit signed integer [RegisterGameMode] takes. *)
Definition pid_ok (pid : Z) : Prop := (- 2 ^ 31 <= pid < 2 ^ 31)%Z.


(** What the relay has logged and done, by the place it has reached, once
    the child with process id [pid] is started. *)
Definition relay_inv (pid : Z) (h : relay.Host) : Prop :=
  relay.Process h = Some pid /\
  match relay.pc h with
  | relay.AtRecv => relay.notify h = true /\ relay.out h = []
  | relay.AtCheck =>
      relay.notify h = true /\ relay.out h = [Log LWarn "Recieved signal"]
  | relay.AtStop =>
      relay.notify h = true /\
      (relay.out h = [Log LWarn "Recieved signal"] \/
       relay.out h = [Log LWarn "Recieved signal"; Log LWarn "Killing Roblox";
                      ProcessKill pid])
  | relay.Finished =>
      relay.notify h = false /\
      (relay.out h = [Log LWarn "Recieved signal"; SignalStop] \/
       relay.out h = [Log LWarn "Recieved signal"; Log LWarn "Killing Roblox";
                      ProcessKill pid; SignalStop])
  | relay.Panicked => False
  end.

(** The child's exit ([cmd.Wait] setting [cmd.ProcessState]) is part of a
    schedule. *)
Definition is_Exited (a : relay.Action) : bool :=
  match a with relay.Exited => true | _ => false end.

Definition exited (acts : list relay.Action) : bool := existsb is_Exited acts.

(** An interrupt or termination signal is delivered in a schedule. *)
Definition is_signal (a : relay.Action) : bool :=
  match a with relay.Deliver s => relay.notified s | _ => false end.

Definition signalled (acts : list relay.Action) : bool := existsb is_signal acts.

(** The calls by which [RobloxLogFile] sets up its watch all succeed:
    the application data directory is [ad], the log directory is created
    (or exists), the watcher is made and the watch is installed. *)
Definition watch_ready (w : WatchWorld) (ad : string) : Prop :=
  AppDataDir_res w = Ok ad /\ MkdirAll_err w = None /\
  NewWatcher_err w = None /\ Watcher_Add_err w = None.

(** The events of the select loop: the timer's expiry and the log line of
    a watcher error. *)
Definition is_wait_event (e : Event) : Prop :=
  e = TimerFired \/ e = Log LError "Recieved fsnotify watcher error".

(** The child exits between the relay's receipt of the signal and its
    check of [cmd.ProcessState]. *)
Definition exitBeforeCheck : list relay.Action :=
  [relay.Deliver relay.SIGTERM; relay.Relay; relay.Exited; relay.Relay;
   relay.Relay].

(** The interrupt arrives while the child is alive. *)
Definition interruptAlive : list relay.Action :=
  [relay.Deliver relay.SIGINT; relay.Relay; relay.Relay; relay.Relay].
(* ================================================================== *)
(** ** Strings: splitting and joining *)

Section StringFacts.

Import strings.

Lemma ascii_eqb_sym (a b : ascii) : Ascii.eqb a b = Ascii.eqb b a.
Proof.
  destruct (Ascii.eqb_spec a b) as [->|Hab].
  - now rewrite Ascii.eqb_refl.
  - symmetry. apply Ascii.eqb_neq. congruence.
Qed.

Lemma Split_nonempty (s : string) (sep : ascii) : Split s sep <> [].
Proof.
  destruct s as [|c s]; cbn; [discriminate|].
  destruct (Ascii.eqb c sep); [discriminate|].
  destruct (Split s sep); discriminate.
Qed.

(** Splitting a string without the separator gives the string itself. *)
Lemma Split_none (s : string) (sep : ascii) :
  ContainsByte s sep = false -> Split s sep = [s].
Proof.
  induction s as [|c s IH]; cbn; [reflexivity|].
  intros H. apply orb_false_iff in H as [Hc Hs].
  rewrite Hc, (IH Hs). reflexivity.
Qed.

(** Splitting [a ++ sep ++ s] where [a] has no separator cuts [a] off. *)
Lemma Split_app (a s : string) (sep : ascii) :
  ContainsByte a sep = false ->
  Split (a ++ String sep s) sep = a :: Split s sep.
Proof.
  induction a as [|c a IH]; cbn.
  - intros _. now rewrite Ascii.eqb_refl.
  - intros H. apply orb_false_iff in H as [Hc Ha].
    rewrite Hc, (IH Ha). reflexivity.
Qed.

Lemma ContainsByte_app (a s : string) (c : ascii) :
  ContainsByte (a ++ s) c = ContainsByte a c || ContainsByte s c.
Proof.
  induction a as [|d a IH]; cbn -[Ascii.eqb]; [reflexivity|].
  now rewrite IH, orb_assoc.
Qed.

(** Splitting around a separator splits both sides. *)
Lemma Split_app_sep (a s : string) (sep : ascii) :
  Split (a ++ String sep s) sep = Split a sep ++ Split s sep.
Proof.
  induction a as [|c a IH]; cbn.
  - now rewrite Ascii.eqb_refl.
  - rewrite IH. destruct (Ascii.eqb c sep); [reflexivity|].
    pose proof (Split_nonempty a sep) as Hne.
    destruct (Split a sep) as [|p rest]; [congruence|reflexivity].
Qed.

(** The pieces of a split do not contain the separator. *)
Lemma Split_pieces (s : string) (sep : ascii) :
  Forall (fun p => ContainsByte p sep = false) (Split s sep).
Proof.
  induction s as [|c s IH]; cbn.
  - repeat constructor.
  - destruct (Ascii.eqb c sep) eqn:Hc.
    + constructor; [reflexivity|exact IH].
    + destruct (Split s sep) as [|p rest].
      * repeat constructor. cbn. now rewrite Hc.
      * inversion IH; subst. constructor; [|assumption].
        cbn. now rewrite Hc.
Qed.

(** Joining the pieces of a split gives the string back. *)
Lemma Join_Split (s : string) (sep : ascii) :
  Join (Split s sep) (String sep EmptyString) = s.
Proof.
  induction s as [|c s IH]; cbn; [reflexivity|].
  destruct (Ascii.eqb_spec c sep) as [->|Hc].
  - pose proof (Split_nonempty s sep) as Hne.
    destruct (Split s sep) as [|p rest]; [congruence|].
    cbn in *. now rewrite IH.
  - destruct (Split s sep) as [|p rest] eqn:E.
    + now destruct (Split_nonempty s sep).
    + rewrite <- IH. destruct rest; reflexivity.
Qed.

(** Splitting the join of pieces without separator gives the pieces. *)
Lemma Split_Join (ts : list string) (sep : ascii) :
  ts <> [] ->
  Forall (fun p => ContainsByte p sep = false) ts ->
  Split (Join ts (String sep EmptyString)) sep = ts.
Proof.
  induction ts as [|t ts IH]; [congruence|].
  intros _ H. inversion H as [|? ? Ht Hts]; subst.
  destruct ts as [|u ts].
  - cbn. now apply Split_none.
  - change (Join (t :: u :: ts) (String sep EmptyString))
      with (t ++ String sep (Join (u :: ts) (String sep EmptyString)))%string.
    rewrite Split_app by assumption.
    f_equal. apply IH; [discriminate|assumption].
Qed.

(** A prefix without a space is a prefix of the join with spaces exactly
    when it is a prefix of the first element. *)
Lemma HasPrefix_app_space (p a s : string) :
  ContainsByte p " " = false ->
  HasPrefix (a ++ String " " s) p = HasPrefix a p.
Proof.
  revert a. induction p as [|c p IH]; intros a H; [destruct a; reflexivity|].
  cbn -[Ascii.eqb] in H. apply orb_false_iff in H as [Hc Hp].
  destruct a as [|d a]; cbn -[Ascii.eqb].
  - now rewrite ascii_eqb_sym, Hc.
  - now rewrite IH.
Qed.

Lemma HasPrefix_Join (p a : string) (rest : list string) :
  ContainsByte p " " = false ->
  HasPrefix (Join (a :: rest) " ") p = HasPrefix a p.
Proof.
  intros H. destruct rest as [|u rest]; [reflexivity|].
  change (Join (a :: u :: rest) " ") with (a ++ String " " (Join (u :: rest) " "))%string.
  now apply HasPrefix_app_space.
Qed.

End StringFacts.

(* ================================================================== *)
(** ** Facts about the run monad *)

Section MonadFacts.

Context {C : Collaborators}.

Lemma Config_load_store (cb : config.Binary) (b : Binary) :
  Config_load (Config_store cb b) = cb.
Proof. unfold Config_load, Config_store. destruct (Config b) eqn:E; cbn; now rewrite E. Qed.

Lemma Config_store_store (x y : config.Binary) (b : Binary) :
  Config_store x (Config_store y b) = Config_store x b.
Proof. unfold Config_store. destruct (Config b) eqn:E; cbn; now rewrite E. Qed.

Lemma Config_store_load (b : Binary) : Config_store (Config_load b) b = b.
Proof.
  unfold Config_store, Config_load.
  destruct b as [? ? ? g cfg ? ? ? ? ? ? ? ?]; destruct g; destruct cfg; reflexivity.
Qed.

Lemma setChannel_same (cb : config.Binary) :
  config.setChannel (config.Channel cb) cb = cb.
Proof. now destruct cb. Qed.

(** Every event of a computation satisfies [P], from every Binary. *)
Definition all_events {A : Type} (P : Event -> Prop) (m : M A) : Prop :=
  forall b, Forall P (events (m b)).

Lemma all_ret {A : Type} (P : Event -> Prop) (a : A) : all_events P (ret a).
Proof. intros b. constructor. Qed.

Lemma all_fail {A : Type} (P : Event -> Prop) (e : error) : all_events P (@fail C A e).
Proof. intros b. constructor. Qed.

Lemma all_get (P : Event -> Prop) : all_events P get.
Proof. intros b. constructor. Qed.

Lemma all_modify (P : Event -> Prop) (f : Binary -> Binary) : all_events P (modify f).
Proof. intros b. constructor. Qed.

Lemma all_emit (P : Event -> Prop) (e : Event) : P e -> all_events P (emit e).
Proof. intros H b. repeat constructor. exact H. Qed.

Lemma all_bind {A B : Type} (P : Event -> Prop) (m : M A) (k : A -> M B) :
  all_events P m -> (forall a, all_events P (k a)) -> all_events P (bind m k).
Proof.
  intros Hm Hk b. unfold bind. specialize (Hm b).
  destruct (m b) as [[[a|e] b1] t1]; cbn in *; [|exact Hm].
  specialize (Hk a b1). destruct (k a b1) as [[r b2] t2]; cbn in *.
  apply Forall_app. split; assumption.
Qed.

Lemma all_defer {A : Type} (P : Event -> Prop) (d : M unit) (m : M A) :
  all_events P d -> all_events P m -> all_events P (defer d m).
Proof.
  intros Hd Hm b. unfold defer. specialize (Hm b).
  destruct (m b) as [[r b1] t1]; cbn in *.
  specialize (Hd b1). destruct (d b1) as [[r2 b2] t2]; cbn in *.
  apply Forall_app. split; assumption.
Qed.

Lemma all_when (P : Event -> Prop) (c : bool) (m : M unit) :
  all_events P m -> all_events P (when c m).
Proof. intros H. destruct c; [exact H|apply all_ret]. Qed.

Lemma all_wrapErr {A : Type} (P : Event -> Prop) (ctx : string) (m : M A) :
  all_events P m -> all_events P (wrapErr ctx m).
Proof.
  intros H b. unfold wrapErr. specialize (H b).
  destruct (m b) as [[[a|e] b1] t1]; exact H.
Qed.

Lemma all_call (P : Event -> Prop) (e : Event) (o : option error) (ctx : string) :
  P e -> all_events P (call e o ctx).
Proof.
  intros H. unfold call. apply all_bind; [now apply all_emit|].
  intros _. destruct o; [apply all_fail|apply all_ret].
Qed.

Lemma all_range {A : Type} (P : Event -> Prop) (xs : list A) (body : A -> M unit) :
  (forall x, all_events P (body x)) -> all_events P (range xs body).
Proof.
  intros H. induction xs as [|x xs IH]; cbn; [apply all_ret|].
  apply all_bind; [apply H|intros _; exact IH].
Qed.

End MonadFacts.

Section RunFacts.

Context {C : Collaborators}.

Lemma events_bind {A B : Type} (m : M A) (k : A -> M B) (b : Binary) :
  events (bind m k b) =
  events (m b) ++
  match result (m b) with
  | Ok a => events (k a (after (m b)))
  | Err _ => []
  end.
Proof.
  unfold bind, events, result, after.
  destruct (m b) as [[[a|e] b1] t1]; cbn; [|now rewrite app_nil_r].
  now destruct (k a b1) as [[r b2] t2].
Qed.

Lemma result_bind {A B : Type} (m : M A) (k : A -> M B) (b : Binary) :
  result (bind m k b) =
  match result (m b) with
  | Ok a => result (k a (after (m b)))
  | Err e => Err e
  end.
Proof.
  unfold bind, events, result, after.
  destruct (m b) as [[[a|e] b1] t1]; cbn; [|reflexivity].
  now destruct (k a b1) as [[r b2] t2].
Qed.

Lemma filter_none (p : Event -> bool) (l : list Event) :
  Forall (fun e => p e = false) l -> filter p l = [].
Proof.
  induction 1 as [|e l He _ IH]; [reflexivity|]. cbn. now rewrite He.
Qed.

Lemma filter_events_none {A : Type} (p : Event -> bool) (m : M A) (b : Binary) :
  all_events (fun e => p e = false) m -> filter p (events (m b)) = [].
Proof. intros H. apply filter_none, H. Qed.

Lemma filter_nil_not_In (p : Event -> bool) (l : list Event) (e : Event) :
  filter p l = [] -> p e = true -> ~ In e l.
Proof.
  intros Hf He Hin.
  assert (In e (filter p l)) as H by (apply filter_In; now split).
  now rewrite Hf in H.
Qed.

End RunFacts.

(* ================================================================== *)
(** ** HandleProtocolURI *)

Section ProtocolFacts.

Context {C : Collaborators}.

Import strings.

Lemma token_channel_Some (t c : string) :
  token_channel t = Some c <-> is_channel_token t c.
Proof.
  unfold token_channel, is_channel_token. split.
  - intros H. pose proof (Join_Split t ":") as HJ.
    pose proof (Split_pieces t ":") as HP.
    destruct (Split t ":") as [|k [|v [|x rest]]]; try discriminate.
    destruct (String.eqb_spec k "channel") as [->|]; [|discriminate].
    destruct (String.eqb_spec v EmptyString) as [|Hv]; [discriminate|].
    injection H as <-. cbn in HJ. repeat split; [now rewrite <- HJ|assumption|].
    inversion HP as [|? ? _ HP']; subst. now inversion HP'.
  - intros (-> & Hne & Hc).
    change ("channel:" ++ c)%string with ("channel" ++ String ":" c)%string.
    rewrite Split_app by reflexivity. rewrite (Split_none _ _ Hc).
    rewrite String.eqb_refl.
    destruct (String.eqb_spec c EmptyString); [contradiction|reflexivity].
Qed.

Lemma token_channel_None (t : string) : token_channel t = None <-> ignored t.
Proof.
  unfold ignored. split.
  - intros H c Hc. apply token_channel_Some in Hc. congruence.
  - intros H. destruct (token_channel t) as [c|] eqn:E; [|reflexivity].
    apply token_channel_Some in E. now destruct (H c).
Qed.

(** One turn of the loop: the channel is stored when the sub-token asks
    for one, and nothing happens otherwise. *)
Lemma HandleProtocolURI_token_run (uri : string) (b : Binary) :
  HandleProtocolURI_token uri b =
  match token_channel uri with
  | Some c =>
      (Ok tt, Config_store (config.setChannel c (Config_load b)) b,
       [Log LWarn "Roblox has requested a user channel, changing..."])
  | None => (Ok tt, b, [])
  end.
Proof.
  unfold HandleProtocolURI_token, token_channel.
  destruct (Split uri ":") as [|k [|v [|x rest]]]; try reflexivity.
  destruct (String.eqb k "channel"); [|reflexivity].
  destruct (String.eqb v EmptyString); reflexivity.
Qed.

Lemma range_tokens (uris : list string) (b : Binary) :
  let o := range uris HandleProtocolURI_token b in
  result o = Ok tt /\
  after o = Config_store
              (config.setChannel
                 (fold_channel uris (config.Channel (Config_load b)))
                 (Config_load b)) b /\
  Forall (fun e => e = Log LWarn "Roblox has requested a user channel, changing...")
         (events o).
Proof.
  revert b. induction uris as [|u rest IH]; intros b.
  - cbn. rewrite setChannel_same, Config_store_load. repeat split. constructor.
  - cbn [range fold_channel]. unfold result, after, events in *. unfold bind.
    rewrite HandleProtocolURI_token_run.
    destruct (token_channel u) as [c|].
    + specialize (IH (Config_store (config.setChannel c (Config_load b)) b)).
      cbn in IH.
      destruct (range rest HandleProtocolURI_token _) as [[r b2] t2].
      cbn in *. destruct IH as (Hr & Ha & He). repeat split; [exact Hr| |].
      * rewrite Ha, Config_load_store, Config_store_store.
        destruct (Config_load b); reflexivity.
      * constructor; [reflexivity|exact He].
    + specialize (IH b). cbn in IH.
      destruct (range rest HandleProtocolURI_token b) as [[r b2] t2].
      cbn in *. exact IH.
Qed.

Lemma fold_channel_ignored (uris : list string) (cur : string) :
  Forall ignored uris -> fold_channel uris cur = cur.
Proof.
  revert cur. induction uris as [|u rest IH]; intros cur H; [reflexivity|].
  inversion H as [|? ? Hu Hrest]; subst. cbn.
  apply token_channel_None in Hu. rewrite Hu. now apply IH.
Qed.

Lemma fold_channel_last (pre post : list string) (t c cur : string) :
  is_channel_token t c -> Forall ignored post ->
  fold_channel (pre ++ t :: post) cur = c.
Proof.
  intros Ht Hpost. revert cur. induction pre as [|u pre IH]; intros cur; cbn.
  - apply token_channel_Some in Ht. rewrite Ht. now apply fold_channel_ignored.
  - apply IH.
Qed.

Lemma HandleProtocolURI_run (mime : string) (b : Binary) :
  let o := HandleProtocolURI mime b in
  result o = Ok tt /\
  after o = Config_store
              (config.setChannel
                 (fold_channel (Split mime "+") (config.Channel (Config_load b)))
                 (Config_load b)) b.
Proof.
  unfold HandleProtocolURI, result, after, bind, emit.
  pose proof (range_tokens (Split mime "+") b) as H.
  unfold result, after in H.
  destruct (range (Split mime "+") HandleProtocolURI_token b) as [[r b2] t2].
  cbn in *. tauto.
Qed.

End ProtocolFacts.

(* ================================================================== *)
(** ** Main *)

(** Proves that no event of a computation satisfies a boolean test. *)
Ltac no_event :=
  repeat (first
    [ apply all_ret | apply all_fail | apply all_get | apply all_modify
    | apply all_emit; reflexivity
    | apply all_call; reflexivity
    | apply all_bind; [|intros ?]
    | apply all_defer | apply all_when | apply all_wrapErr
    | apply all_range; intros ?
    | progress cbv zeta
    | match goal with
      | |- all_events _ (match ?x with _ => _ end) => destruct x
      | |- all_events _ (let 'pair _ _ := ?x in _) => destruct x
      end ]).

Section MainFacts.

Context {C : Collaborators}.

Lemma Main_launch_no_init (w : World) (args : list string) :
  all_events (fun e => is_init_or_install e = false) (Main_launch w args).
Proof.
  unfold Main_launch, Main_setup. no_event.
Qed.

Lemma Main_launch_no_protocol (w : World) (args : list string) :
  all_events (fun e => is_Invoke_HandleProtocolURI e = false) (Main_launch w args).
Proof.
  unfold Main_launch, Main_setup. no_event.
Qed.

Lemma Main_protocol_no_init (args : list string) :
  all_events (fun e => is_init_or_install e = false) (Main_protocol args).
Proof.
  unfold Main_protocol, HandleProtocolURI.
  destruct args as [|a [|a' rest]]; no_event.
  unfold HandleProtocolURI_token. no_event.
Qed.

(** The first-run initialization, by the outcome of its two steps. *)
Lemma Main_init_run (m : MainWorld) (b : Binary) :
  Main_init m b =
  let evs := [Log LInfo "Initializing wineprefix";
              SplashSetMessage "Initializing wineprefix";
              init_call (Type_ b)] in
  match init_err m (Type_ b) with
  | Some e =>
      (Err (ErrWrap ("failed to init " ++ roblox_String (Type_ b) ++ " prefix") e),
       b, evs)
  | None =>
      (match InstallWebView_err m with
       | Some e => Err (ErrWrap "failed to install webview" e)
       | None => Ok tt
       end,
       InstallWebView_upd m b, evs ++ [Invoke FnInstallWebView])
  end.
Proof.
  unfold Main_init, init_err, init_call.
  destruct (Type_ b) eqn:Et; cbn; rewrite ?Et; cbn.
  - destruct (Prefix_Init_err m); [reflexivity|].
    destruct (InstallWebView_err m); reflexivity.
  - destruct (Prefix_SetDPI_err m); [reflexivity|].
    destruct (InstallWebView_err m); reflexivity.
Qed.

Lemma Main_firstRun_run (m : MainWorld) (b : Binary) :
  Main_firstRun m b =
  if needs_init m then
    (result (Main_init m b), after (Main_init m b),
     firstRun_events m b ++ events (Main_init m b))
  else (Ok tt, b, firstRun_events m b).
Proof.
  unfold Main_firstRun, firstRun_events, needs_init, bind, get, emit, when, ret,
    result, after, events.
  destruct (firstRun m && negb (CPU_AVX m));
    destruct (firstRun m || FirstRun m); try reflexivity;
    destruct (Main_init m b) as [[[[]|e] b1] t1]; reflexivity.
Qed.

Lemma firstRun_events_no (p : Event -> bool) (m : MainWorld) (b : Binary) :
  (forall s, p (Stat s) = false) ->
  (forall s c, p (SplashDialog s c) = false) ->
  (forall l s, p (Log l s) = false) ->
  (forall t, p (Go t) = false) ->
  filter p (firstRun_events m b) = [].
Proof.
  intros H1 H2 H3 H4. unfold firstRun_events.
  destruct (firstRun m && negb (CPU_AVX m)); cbn; now rewrite ?H1, ?H2, ?H3, ?H4.
Qed.

(** Main once the log file is open: the prologue, lines 124-175, then,
    when these return no error, lines 177-192, then the deferred close. *)
Lemma Main_run (w : World) (args : list string) (b : Binary) :
  LogFile_err (wMain w) = None ->
  let fr := Main_firstRun (wMain w) (set_Splash (Some (mkSplash EmptyString)) b) in
  let rest := (Main_protocol args ;; Main_launch w args) (after fr) in
  events (Main w args b) =
    [SplashNew; EnvSetenv (config.Env (Config_load b));
     OpenLogFile (roblox_String (Type_ b)); SetOutput] ++
    events fr ++
    match result fr with Ok _ => events rest | Err _ => [] end ++
    [CloseLogFile] /\
  result (Main w args b) =
    match result fr with Ok _ => result rest | Err e => Err e end.
Proof.
  intros H fr rest. unfold Main. rewrite H.
  set (body := bind (Main_firstRun (wMain w)) _).
  assert (He : events (body (set_Splash (Some (mkSplash EmptyString)) b)) =
               events fr ++ match result fr with Ok _ => events rest | Err _ => [] end)
    by (subst body fr rest; rewrite events_bind; reflexivity).
  assert (Hr : result (body (set_Splash (Some (mkSplash EmptyString)) b)) =
               match result fr with Ok _ => result rest | Err e => Err e end)
    by (subst body fr rest; rewrite result_bind; reflexivity).
  clearbody body fr rest.
  unfold bind, defer, emit, modify, get, Main_setLogPath.
  destruct (body (set_Splash (Some (mkSplash EmptyString)) b)) as [[r b2] t2].
  unfold events, result in *. cbn in *. subst t2 r.
  rewrite <- !app_assoc. split; reflexivity.
Qed.

(** The events and the result of Main once the log file is open, by the
    outcome of the initialization. *)
Lemma Main_cases (w : World) (args : list string) (b : Binary) :
  LogFile_err (wMain w) = None ->
  let m := wMain w in
  let b1 := set_Splash (Some (mkSplash EmptyString)) b in
  let bt := Type_ b in
  let pre := [SplashNew; EnvSetenv (config.Env (Config_load b));
              OpenLogFile (roblox_String bt); SetOutput] ++ firstRun_events m b in
  let ini := [Log LInfo "Initializing wineprefix";
              SplashSetMessage "Initializing wineprefix"; init_call bt] in
  let rest := (Main_protocol args ;; Main_launch w args) in
  events (Main w args b) =
    (if needs_init m then
       match init_err m bt with
       | Some e => pre ++ ini ++ [CloseLogFile]
       | None =>
           match InstallWebView_err m with
           | Some e => pre ++ ini ++ [Invoke FnInstallWebView; CloseLogFile]
           | None =>
               pre ++ ini ++ Invoke FnInstallWebView ::
                 events (rest (InstallWebView_upd m b1)) ++ [CloseLogFile]
           end
       end
     else pre ++ events (rest b1) ++ [CloseLogFile]) /\
  result (Main w args b) =
    (if needs_init m then
       match init_err m bt with
       | Some e =>
           Err (ErrWrap ("failed to init " ++ roblox_String bt ++ " prefix") e)
       | None =>
           match InstallWebView_err m with
           | Some e => Err (ErrWrap "failed to install webview" e)
           | None => result (rest (InstallWebView_upd m b1))
           end
       end
     else result (rest b1)).
Proof.
  intros H m b1 bt pre ini rest.
  destruct (Main_run w args b H) as [He Hr]. rewrite He, Hr. clear He Hr.
  fold m b1 rest. rewrite Main_firstRun_run.
  destruct (needs_init m).
  - rewrite Main_init_run. change (Type_ b1) with bt.
    destruct (init_err m bt) as [e|].
    + unfold result, after, events. cbn [fst snd]. subst pre ini.
      change (firstRun_events m b1) with (firstRun_events m b).
      now rewrite <- !app_assoc.
    + unfold result, after, events. cbn [fst snd].
      change (firstRun_events m b1) with (firstRun_events m b).
      destruct (InstallWebView_err m) as [e|]; subst pre ini;
        now rewrite <- !app_assoc.
  - unfold result, after, events. cbn [fst snd]. subst pre.
    change (firstRun_events m b1) with (firstRun_events m b).
    now rewrite <- !app_assoc.
Qed.

End MainFacts.

Section FirstRun.

Context {C : Collaborators}.

Lemma Main_launch_Setup (w : World) (args : list string) (b : Binary) :
  In (Invoke FnSetup) (events (Main_launch w args b)).
Proof.
  unfold Main_launch, Main_setup, bind, emit, get, modify, events, fail, ret.
  destruct (Setup_err (wMain w)); cbn; [tauto|].
  destruct (wrapErr _ _ _) as [[r b2] t2]. cbn. tauto.
Qed.

(** C5 (amended).  In every run of Main in which the log file was
    created: the marker directory [drive_c/windows] of the prefix is
    looked up, and first run holds when the lookup fails.  When first run
    holds or the [FirstRun] flag is set, Main performs the initialization
    call of the variant ([Prefix.Init] for Player, [Prefix.SetDPI(97)]
    for Studio); when that call fails Main returns the error wrapped as
    [failed to init <variant> prefix], without installing WebView, and
    invokes neither Setup nor Run; when it succeeds the WebView install
    follows it, and when the install fails Main returns the error wrapped
    as [failed to install webview] and invokes neither Setup nor Run;
    when both succeed Setup is invoked.  When first run does not hold and
    the flag is unset, neither initialization call nor the install
    occurs. *)
Theorem Main_first_run_initialization :
  forall (w : World) (args : list string) (b : Binary),
  LogFile_err (wMain w) = None ->
  let m := wMain w in
  let o := Main w args b in
  let bt := Type_ b in
  In (Stat (filepath_Join [Prefix_Dir (Prefix b); "drive_c"; "windows"])) (events o) /\
  (firstRun m = match Stat_err m with Some _ => true | None => false end) /\
  if firstRun m || FirstRun m then
    In (init_call bt) (events o) /\
    match init_err m bt with
    | Some e =>
        result o =
          Err (ErrWrap ("failed to init " ++ roblox_String bt ++ " prefix") e) /\
        filter is_Setup_or_Run (events o) = [] /\
        ~ In (Invoke FnInstallWebView) (events o)
    | None =>
        precedes (init_call bt) (Invoke FnInstallWebView) (events o) /\
        match InstallWebView_err m with
        | Some e =>
            result o = Err (ErrWrap "failed to install webview" e) /\
            filter is_Setup_or_Run (events o) = []
        | None => In (Invoke FnSetup) (events o)
        end
    end
  else filter is_init_or_install (events o) = [].
Proof.
  intros w args b H m o bt. subst o.
  destruct (Main_cases w args b H) as [He Hr]. cbv zeta in He, Hr.
  fold m bt in He, Hr. unfold needs_init in He, Hr.
  rewrite He, Hr. clear He Hr.
  split; [|split; [reflexivity|]].
  { destruct (firstRun m || FirstRun m);
      [destruct (init_err m bt); [|destruct (InstallWebView_err m)]|];
      rewrite !in_app_iff; left; right; left; reflexivity. }
  destruct (firstRun m || FirstRun m).
  - destruct (init_err m bt) as [e|].
    + split; [|split; [reflexivity|split]].
      * rewrite !in_app_iff. right. left. cbn. tauto.
      * rewrite !filter_app, firstRun_events_no by reflexivity.
        destruct bt; reflexivity.
      * apply filter_nil_not_In with (p := is_Invoke_InstallWebView);
          [|reflexivity].
        rewrite !filter_app, firstRun_events_no by reflexivity.
        destruct bt; reflexivity.
    + split; [|split].
      * destruct (InstallWebView_err m); rewrite !in_app_iff; right; left;
          cbn; tauto.
      * exists ([SplashNew; EnvSetenv (config.Env (Config_load b));
                 OpenLogFile (roblox_String bt); SetOutput] ++
                firstRun_events m b ++
                [Log LInfo "Initializing wineprefix";
                 SplashSetMessage "Initializing wineprefix"]).
        destruct (InstallWebView_err m); eexists;
          (split; [rewrite <- !app_assoc; cbn [app]; reflexivity|left; reflexivity]).
      * destruct (InstallWebView_err m) as [e|].
        -- split; [reflexivity|].
           rewrite !filter_app, firstRun_events_no by reflexivity.
           destruct bt; reflexivity.
        -- rewrite !in_app_iff. right. right. cbn [In]. right.
           rewrite in_app_iff. left.
           rewrite events_bind.
           assert (result (Main_protocol args
                     (InstallWebView_upd m (set_Splash (Some (mkSplash EmptyString)) b)))
                   = Ok tt) as ->.
           { unfold Main_protocol. destruct args as [|a [|a' l]]; try reflexivity.
             apply HandleProtocolURI_run. }
           rewrite in_app_iff. right. apply Main_launch_Setup.
  - rewrite !filter_app, firstRun_events_no by reflexivity.
    cbn [filter is_init_or_install app].
    rewrite events_bind, filter_app.
    rewrite (filter_events_none is_init_or_install (Main_protocol args))
      by apply Main_protocol_no_init.
    destruct (result (Main_protocol args _)); [|reflexivity].
    rewrite (filter_events_none is_init_or_install (Main_launch w args))
      by apply Main_launch_no_init.
    reflexivity.
Qed.

End FirstRun.

(** The theorem at a first run of the sample Player binary. *)
Lemma Main_first_run_initialization_witness :
  LogFile_err (wMain firstRunWorld) = None /\
  precedes PrefixInit (Invoke FnInstallWebView)
           (events (Main firstRunWorld [] (sampleBinary false false false))) /\
  In (Invoke FnSetup) (events (Main firstRunWorld [] (sampleBinary false false false))).
Proof.
  split; [reflexivity|].
  pose proof (Main_first_run_initialization
                firstRunWorld [] (sampleBinary false false false) eq_refl) as H.
  cbv zeta in H. destruct H as (_ & _ & H).
  change (firstRun (wMain firstRunWorld) || FirstRun (wMain firstRunWorld))
    with true in H.
  destruct H as (_ & H). exact H.
Defined.

(** C5 as stated fails when the log file cannot be created: the marker
    directory is absent, so first run holds, and Main returns before any
    initialization. *)
Lemma Main_first_run_without_log_file :
  let o := Main noLogFileWorld [] (sampleBinary false false false) in
  Stat_err (wMain noLogFileWorld) <> None /\
  events o = [SplashNew; EnvSetenv []; OpenLogFile "Player"] /\
  ~ In PrefixInit (events o) /\
  result o = Err (ErrWrap "create log file" (ErrNew "permission denied")).
Proof.
  cbv zeta. split; [discriminate|]. split; [reflexivity|]. split; [|reflexivity].
  vm_compute. intros [H|[H|[H|[]]]]; discriminate.
Qed.

Section ProtocolURI.

Context {C : Collaborators}.

Import strings.

Lemma HandleProtocolURI_invoked (mime : string) (b : Binary) :
  filter is_Invoke_HandleProtocolURI (events (HandleProtocolURI mime b)) =
  [Invoke (FnHandleProtocolURI mime)].
Proof.
  unfold HandleProtocolURI. rewrite events_bind. cbn [emit events result snd fst app].
  cbn [filter is_Invoke_HandleProtocolURI]. f_equal.
  apply filter_none.
  destruct (range_tokens (Split mime "+")
              (after (emit (Invoke (FnHandleProtocolURI mime)) b))) as (_ & _ & H).
  eapply Forall_impl; [|exact H]. now intros e ->.
Qed.

(** Lines 177-192: HandleProtocolURI is invoked on the single argument,
    and on nothing otherwise. *)
Lemma Main_rest_invokes (w : World) (args : list string) (b : Binary) :
  filter is_Invoke_HandleProtocolURI
         (events ((Main_protocol args ;; Main_launch w args) b)) =
  match args with
  | [mime] => [Invoke (FnHandleProtocolURI mime)]
  | _ => []
  end.
Proof.
  rewrite events_bind, filter_app.
  assert (result (Main_protocol args b) = Ok tt) as ->.
  { unfold Main_protocol. destruct args as [|a [|a' l]]; try reflexivity.
    apply HandleProtocolURI_run. }
  rewrite (filter_events_none is_Invoke_HandleProtocolURI (Main_launch w args))
    by apply Main_launch_no_protocol.
  rewrite app_nil_r. unfold Main_protocol.
  destruct args as [|a [|a' l]]; try reflexivity.
  apply HandleProtocolURI_invoked.
Qed.

(** Main invokes HandleProtocolURI when it gets as far as line 177 with
    one argument, and never otherwise. *)
Lemma Main_invokes (w : World) (args : list string) (b : Binary) :
  filter is_Invoke_HandleProtocolURI (events (Main w args b)) =
  if reaches_protocol (wMain w) (Type_ b) then
    match args with
    | [mime] => [Invoke (FnHandleProtocolURI mime)]
    | _ => []
    end
  else [].
Proof.
  unfold reaches_protocol.
  destruct (LogFile_err (wMain w)) as [e|] eqn:HL.
  - unfold Main. rewrite HL. reflexivity.
  - destruct (Main_cases w args b HL) as [He _]. cbv zeta in He. rewrite He.
    destruct (needs_init (wMain w)); cbn [negb orb].
    + destruct (init_err (wMain w) (Type_ b));
        [|destruct (InstallWebView_err (wMain w))];
        rewrite !filter_app, ?firstRun_events_no by reflexivity;
        cbn [filter is_Invoke_HandleProtocolURI app];
        try (destruct (Type_ b); reflexivity).
      rewrite filter_app, Main_rest_invokes.
      destruct (Type_ b); cbn; now rewrite app_nil_r.
    + rewrite !filter_app, firstRun_events_no by reflexivity.
      rewrite Main_rest_invokes. cbn. now rewrite app_nil_r.
Qed.

Lemma Main_launch_SetDesc (w : World) (args : list string) (b : Binary) :
  In (SplashSetDesc (config.Channel (Config_load b))) (events (Main_launch w args b)).
Proof.
  unfold Main_launch, Main_setup, bind, emit, get, modify, events, fail, ret.
  destruct (Setup_err (wMain w)); cbn; [tauto|].
  destruct (wrapErr _ _ _) as [[r b2] t2]. cbn. tauto.
Qed.

(** The description Main shows is the channel as protocol handling left
    it. *)
Lemma Main_shows_channel (w : World) (args : list string) (b : Binary) :
  reaches_protocol (wMain w) (Type_ b) = true ->
  let b1 := set_Splash (Some (mkSplash EmptyString)) b in
  let b2 := if needs_init (wMain w) then InstallWebView_upd (wMain w) b1 else b1 in
  In (SplashSetDesc (config.Channel (Config_load (after (Main_protocol args b2)))))
     (events (Main w args b)).
Proof.
  intros H. cbv zeta. unfold reaches_protocol in H.
  destruct (LogFile_err (wMain w)) as [e|] eqn:HL; [discriminate|].
  destruct (Main_cases w args b HL) as [He _]. cbv zeta in He. rewrite He.
  assert (forall b', In (SplashSetDesc
                           (config.Channel (Config_load (after (Main_protocol args b')))))
                        (events ((Main_protocol args ;; Main_launch w args) b'))) as Hrest.
  { intros b'. rewrite events_bind.
    assert (result (Main_protocol args b') = Ok tt) as ->.
    { unfold Main_protocol. destruct args as [|a [|a' l]]; try reflexivity.
      apply HandleProtocolURI_run. }
    rewrite in_app_iff. right. apply Main_launch_SetDesc. }
  destruct (needs_init (wMain w)); cbn [negb orb] in H.
  - destruct (init_err (wMain w) (Type_ b)); [discriminate|].
    destruct (InstallWebView_err (wMain w)); [discriminate|].
    rewrite !in_app_iff. right. right. cbn [In]. right.
    rewrite in_app_iff. left. apply Hrest.
  - rewrite !in_app_iff. right. left. apply Hrest.
Qed.

Lemma ignored_parts (parts : list string) (t : string) :
  Split t ":" = parts -> List.length parts <> 2 -> ignored t.
Proof.
  intros Hs Hl. apply token_channel_None. unfold token_channel. rewrite Hs.
  destruct parts as [|k [|v [|x rest]]]; try reflexivity. now destruct Hl.
Qed.

Lemma ignored_no_colon (t : string) : ContainsByte t ":" = false -> ignored t.
Proof.
  intros H. apply (ignored_parts [t]); [now apply Split_none|discriminate].
Qed.

Lemma ignored_three_parts (k v v' : string) :
  ignored (k ++ String ":" (v ++ String ":" v')).
Proof.
  eapply ignored_parts; [reflexivity|].
  rewrite !Split_app_sep, !length_app.
  pose proof (Split_nonempty k ":"). pose proof (Split_nonempty v ":").
  pose proof (Split_nonempty v' ":").
  destruct (Split k ":"), (Split v ":"), (Split v' ":"); cbn; try congruence; lia.
Qed.

Lemma ignored_other_key (k v : string) :
  k <> "channel" -> ignored (k ++ String ":" v).
Proof.
  intros Hk. apply token_channel_None. unfold token_channel.
  rewrite Split_app_sep.
  pose proof (Join_Split k ":") as HJ.
  pose proof (Split_nonempty k ":") as Hk0. pose proof (Split_nonempty v ":") as Hv0.
  destruct (Split k ":") as [|k1 [|k2 kr]]; [congruence| |].
  - cbn in HJ. subst k1.
    destruct (Split v ":") as [|v1 [|v2 vr]]; [congruence| |reflexivity].
    cbn. destruct (String.eqb_spec k "channel"); [contradiction|reflexivity].
  - destruct (Split v ":") as [|v1 vr]; [congruence|].
    cbn. destruct kr; reflexivity.
Qed.

Lemma ignored_empty_value : ignored "channel:".
Proof. apply token_channel_None. reflexivity. Qed.

(** C1 (amended).  An invocation of Main that gets as far as protocol
    handling (the log file was created and, on a first run, the
    initialization and the WebView install succeeded) with exactly one
    argument invokes HandleProtocolURI on that argument, once; with any
    other number of arguments Main never invokes it and lines 177-180
    leave the Binary as it is; the description Main then shows is the
    channel as these lines left it.  HandleProtocolURI splits its
    argument on [+] (every string is the join of its sub-tokens, none of
    which contains [+]); a sub-token [channel:c] with [c] non-empty and
    free of [:] that is followed only by ignored sub-tokens stores
    exactly [c] in the channel, whatever precedes it (the last one wins);
    when every sub-token is ignored the Binary is unchanged.  Ignored are
    the sub-token [channel:] with an empty value, every sub-token without
    [:], every sub-token with a key other than [channel], and every
    sub-token of three or more parts. *)
Theorem Main_protocol_uri :
  forall (w : World) (b : Binary),
  (forall mime, reaches_protocol (wMain w) (Type_ b) = true ->
     filter is_Invoke_HandleProtocolURI (events (Main w [mime] b)) =
     [Invoke (FnHandleProtocolURI mime)]) /\
  (forall args, List.length args <> 1 ->
     filter is_Invoke_HandleProtocolURI (events (Main w args b)) = [] /\
     Main_protocol args b = (Ok tt, b, [])) /\
  (forall args, reaches_protocol (wMain w) (Type_ b) = true ->
     let b1 := set_Splash (Some (mkSplash EmptyString)) b in
     let b2 := if needs_init (wMain w) then InstallWebView_upd (wMain w) b1 else b1 in
     In (SplashSetDesc (config.Channel (Config_load (after (Main_protocol args b2)))))
        (events (Main w args b))) /\
  (forall mime,
     Join (Split mime "+") "+" = mime /\ Forall no_plus (Split mime "+")) /\
  (forall pre c post,
     Forall no_plus pre -> Forall no_plus post -> no_plus c ->
     c <> EmptyString -> ContainsByte c ":" = false -> Forall ignored post ->
     after (HandleProtocolURI (Join (pre ++ ("channel:" ++ c)%string :: post) "+") b) =
     Config_store (config.setChannel c (Config_load b)) b) /\
  (forall ts,
     ts <> [] -> Forall no_plus ts -> Forall ignored ts ->
     after (HandleProtocolURI (Join ts "+") b) = b) /\
  ignored "channel:" /\
  (forall t, ContainsByte t ":" = false -> ignored t) /\
  (forall k v, k <> "channel" -> ignored (k ++ ":" ++ v)%string) /\
  (forall k v v', ignored (k ++ ":" ++ v ++ ":" ++ v')%string).
Proof.
  intros w b. repeat match goal with |- _ /\ _ => split end.
  - intros mime H. now rewrite Main_invokes, H.
  - intros args Hl. split.
    + rewrite Main_invokes. destruct (reaches_protocol _ _); [|reflexivity].
      destruct args as [|a [|a' l]]; try reflexivity. now destruct Hl.
    + destruct args as [|a [|a' l]]; try reflexivity. now destruct Hl.
  - intros args H. now apply Main_shows_channel.
  - intros mime. split; [apply Join_Split|apply Split_pieces].
  - intros pre c post Hpre Hpost Hc Hne Hcolon Hign.
    destruct (HandleProtocolURI_run
                (Join (pre ++ ("channel:" ++ c)%string :: post) "+") b) as [_ ->].
    rewrite Split_Join.
    + rewrite (fold_channel_last pre post ("channel:" ++ c)%string c);
        [reflexivity| |assumption].
      repeat split; assumption.
    + now destruct pre.
    + apply Forall_app. split; [assumption|]. constructor; [|assumption].
      unfold no_plus in *. now rewrite ContainsByte_app, Hc.
  - intros ts Hne Hplus Hign.
    destruct (HandleProtocolURI_run (Join ts "+") b) as [_ ->].
    rewrite Split_Join by assumption.
    rewrite fold_channel_ignored by assumption.
    now rewrite setChannel_same, Config_store_load.
  - apply ignored_empty_value.
  - apply ignored_no_colon.
  - apply ignored_other_key.
  - apply ignored_three_parts.
Qed.

End ProtocolURI.

(** The theorem on the sample binary: Main parses its one argument, and
    of several channel sub-tokens the last effective one wins. *)
Lemma Main_protocol_uri_witness :
  reaches_protocol (wMain calmWorld) Player = true /\
  filter is_Invoke_HandleProtocolURI
         (events (Main calmWorld ["channel:zintegration"] (sampleBinary false false false))) =
  [Invoke (FnHandleProtocolURI "channel:zintegration")] /\
  In (SplashSetDesc "zintegration")
     (events (Main calmWorld ["channel:zintegration"] (sampleBinary false false false))) /\
  config.Channel
    (Config_load
       (after (HandleProtocolURI "x+channel:alpha+channel:beta+channel:+foo:bar+a:b:c"
                                 (sampleBinary false false false)))) = "beta".
Proof.
  destruct (Main_protocol_uri calmWorld (sampleBinary false false false))
    as (H1 & _ & H3 & _ & H4 & _).
  split; [reflexivity|]. split; [exact (H1 "channel:zintegration" eq_refl)|].
  split; [exact (H3 ["channel:zintegration"] eq_refl)|].
  transitivity
    (config.Channel
       (Config_load
          (Config_store
             (config.setChannel "beta" (Config_load (sampleBinary false false false)))
             (sampleBinary false false false)))); [|reflexivity].
  apply (f_equal (fun x => config.Channel (Config_load x))).
  refine (H4 ["x"; "channel:alpha"] "beta" ["channel:"; "foo:bar"; "a:b:c"]
             _ _ _ _ _ _).
  - repeat constructor.
  - repeat constructor.
  - reflexivity.
  - discriminate.
  - reflexivity.
  - repeat constructor.
    + apply ignored_empty_value.
    + apply (ignored_other_key "foo" "bar"). discriminate.
    + apply (ignored_three_parts "a" "b" "c").
Defined.

(** C1 as stated fails when the initialization fails on a first run:
    Main is invoked with exactly one argument, returns before line 177,
    never invokes HandleProtocolURI and leaves the channel as it was. *)
Lemma Main_protocol_skipped_when_init_fails :
  let b := sampleBinary false false false in
  let o := Main initFailsWorld ["channel:beta"] b in
  filter is_Invoke_HandleProtocolURI (events o) = [] /\
  config.Channel (Config_load (after o)) = config.Channel (Config_load b) /\
  config.Channel (Config_load (after o)) <> "beta" /\
  result o = Err (ErrWrap "failed to init Player prefix" (ErrNew "exit status 1")).
Proof.
  cbv zeta. repeat split; try reflexivity. vm_compute. discriminate.
Qed.

Section Frame.

Context {C : Collaborators}.

(** C10.  For every input string, HandleProtocolURI returns normally and
    changes at most the channel of the Binary's configuration: every
    field of the Binary struct, every other field of its configuration
    subset, the configuration of the other variant and the global
    settings, and its persisted state are as before. *)
Theorem HandleProtocolURI_frame :
  forall (mime : string) (b : Binary),
  let o := HandleProtocolURI mime b in
  let b' := after o in
  result o = Ok tt /\
  (exists c, b' = Config_store (config.setChannel c (Config_load b)) b) /\
  Splash b' = Splash b /\ GlobalState b' = GlobalState b /\ State b' = State b /\
  Config b' = Config b /\ Alias b' = Alias b /\ Name b' = Name b /\
  Dir b' = Dir b /\ Prefix b' = Prefix b /\ Type_ b' = Type_ b /\
  Deploy b' = Deploy b /\ Auth b' = Auth b /\ Activity b' = Activity b /\
  State_load b' = State_load b /\
  config.Launcher (Config_load b') = config.Launcher (Config_load b) /\
  config.DiscordRPC (Config_load b') = config.DiscordRPC (Config_load b) /\
  config.GameMode (Config_load b') = config.GameMode (Config_load b) /\
  config.WineRoot (Config_load b') = config.WineRoot (Config_load b) /\
  config.Env (Config_load b') = config.Env (Config_load b) /\
  config.MultipleInstances (GlobalConfig b') = config.MultipleInstances (GlobalConfig b) /\
  config.SplashEnabled (GlobalConfig b') = config.SplashEnabled (GlobalConfig b) /\
  match Config b with
  | Player => config.cfgStudio (GlobalConfig b') = config.cfgStudio (GlobalConfig b)
  | Studio => config.cfgPlayer (GlobalConfig b') = config.cfgPlayer (GlobalConfig b)
  end.
Proof.
  intros mime b o b'. subst o b'.
  destruct (HandleProtocolURI_run mime b) as [Hr Ha]. rewrite Hr, Ha.
  split; [reflexivity|]. split; [eexists; reflexivity|].
  unfold Config_store, Config_load, State_load.
  destruct (Config b) eqn:E; cbn; rewrite ?E; cbn; repeat split; reflexivity.
Qed.

End Frame.

(* ================================================================== *)
(** ** Command *)

Section CommandFacts.

Context {C : Collaborators}.

Import strings.

Lemma Command_args_prefix (a : string) (rest : list string) :
  HasPrefix a "roblox-studio:1" = true ->
  Command_args (a :: rest) = ["-protocolString"; a].
Proof.
  intros H. unfold Command_args.
  now rewrite (HasPrefix_Join "roblox-studio:1" a rest eq_refl), H.
Qed.

(** C9.  The space-joined argument list has the prefix [roblox-studio:1]
    exactly when the list has a first argument with that prefix.  For
    every such list Command replaces the arguments by
    [-protocolString] and the first argument: the command is the one
    [Prefix.Wine] builds from the executable path and these two
    arguments (with the launcher's tokens put in front and the launcher's
    path when a launcher is configured), whatever followed the first
    argument. *)
Theorem Command_protocol_string :
  forall (w : RunWorld) (a : string) (rest : list string) (b : Binary),
  HasPrefix a "roblox-studio:1" = true ->
  (forall args,
     HasPrefix (Join args " ") "roblox-studio:1" = true <->
     exists a' rest', args = a' :: rest' /\ HasPrefix a' "roblox-studio:1" = true) /\
  Command_args (a :: rest) = ["-protocolString"; a] /\
  result (Command w (a :: rest) b) =
    (let cmd := Prefix_Wine (Prefix b) (filepath_Join [Dir b; Executable (Type_ b)])
                            ["-protocolString"; a] in
     let launcher := strings_Fields (config.Launcher (Config_load b)) in
     if Nat.leb 1 (List.length launcher) then
       match LauncherPath_res w with
       | Ok p => Ok (mkCmd p (launcher ++ Args cmd))
       | Err err => Err (ErrWrap "bad launcher" err)
       end
     else Ok cmd) /\
  result (Command w (a :: rest) b) = result (Command w (a :: nil) b).
Proof.
  intros w a rest b H.
  assert (forall l, result (Command w (a :: l) b) =
    (let cmd := Prefix_Wine (Prefix b) (filepath_Join [Dir b; Executable (Type_ b)])
                            ["-protocolString"; a] in
     let launcher := strings_Fields (config.Launcher (Config_load b)) in
     if Nat.leb 1 (List.length launcher) then
       match LauncherPath_res w with
       | Ok p => Ok (mkCmd p (launcher ++ Args cmd))
       | Err err => Err (ErrWrap "bad launcher" err)
       end
     else Ok cmd)) as Hres.
  { intros l. unfold Command. rewrite (Command_args_prefix a l H).
    unfold bind, emit, get, result. cbn -[Nat.leb].
    match goal with |- context [Nat.leb 1 ?n] => destruct (Nat.leb 1 n) end;
      [|reflexivity].
    destruct (LauncherPath_res w); reflexivity. }
  split; [|split; [now apply Command_args_prefix|split]].
  - intros args. split.
    + intros Hp. destruct args as [|a' rest']; [discriminate|].
      exists a', rest'. split; [reflexivity|].
      now rewrite (HasPrefix_Join "roblox-studio:1" a' rest' eq_refl) in Hp.
    + intros (a' & rest' & -> & Hp).
      now rewrite (HasPrefix_Join "roblox-studio:1" a' rest' eq_refl).
  - apply Hres.
  - now rewrite !Hres.
Qed.

End CommandFacts.

(** The theorem on a Studio protocol string followed by two more
    arguments. *)
Lemma Command_protocol_string_witness :
  strings.HasPrefix "roblox-studio:1+launchmode:edit" "roblox-studio:1" = true /\
  Command_args ["roblox-studio:1+launchmode:edit"; "-task"; "EditPlace"] =
  ["-protocolString"; "roblox-studio:1+launchmode:edit"] /\
  result (Command calmRun ["roblox-studio:1+launchmode:edit"; "-task"; "EditPlace"]
                  (sampleBinary false false false)) =
  Ok (mkCmd "wine" ["wine"; "/versions/v1/RobloxPlayerBeta.exe"; "-protocolString";
                    "roblox-studio:1+launchmode:edit"]).
Proof.
  destruct (Command_protocol_string calmRun "roblox-studio:1+launchmode:edit"
              ["-task"; "EditPlace"] (sampleBinary false false false) eq_refl)
    as (_ & H2 & H3 & _).
  split; [reflexivity|]. split; [exact H2|]. rewrite H3. reflexivity.
Defined.

(* ================================================================== *)
(** ** Run *)

Section RunProgram.

Context {C : Collaborators}.

Lemma Run_connect_run (w : RunWorld) (b : Binary) :
  Run_connect w b =
  if config.DiscordRPC (Config_load b) then
    match Connect_err w with
    | Some _ =>
        (Ok false, Config_store (config.setDiscordRPC false (Config_load b)) b,
         [ActivityConnect; Log LError "Could not connect to Discord RPC"])
    | None => (Ok true, b, [ActivityConnect])
    end
  else (Ok false, b, []).
Proof.
  unfold Run_connect, bind, get. cbn.
  destruct (config.DiscordRPC (Config_load b)); [|reflexivity].
  destruct (Connect_err w); reflexivity.
Qed.

Lemma Command_run (w : RunWorld) (args : list string) (b : Binary) :
  after (Command w args b) = b /\ events (Command w args b) = Command_events args b.
Proof.
  unfold Command, Command_events, bind, emit, get, after, events. cbn -[Nat.leb].
  match goal with |- context [Nat.leb 1 ?n] => destruct (Nat.leb 1 n) end;
    [|split; reflexivity].
  destruct (LauncherPath_res w); split; reflexivity.
Qed.

Lemma cmd_Run_run (w : RunWorld) (cmd : Cmd) (b : Binary) :
  cmd_Run w cmd b =
  (match cmd_Run_err w with Some e => Err e | None => Ok tt end, b,
   cmd_Run_events w cmd).
Proof.
  unfold cmd_Run, cmd_Run_err, cmd_Run_events, bind, emit. cbn.
  destruct (cmd_Start_err w); [reflexivity|].
  destruct (cmd_Wait_err w); reflexivity.
Qed.

(** Lines 222-296, by the outcome of the helper's start, of Command and
    of the child. *)
Lemma Run_launch_run (w : RunWorld) (args : list string) (b : Binary) :
  Run_launch w args b =
  if wants_mutexer b then
    match mutexer_Start_err w with
    | Some e =>
        (Err (ErrWrap "start robloxmutexer" e), b,
         [Log LInfo "Running robloxmutexer"; MutexerStart (mutexer_Cmd b)])
    | None =>
        match result (Command w args b) with
        | Err e =>
            (Err (ErrWrap (roblox_String (Type_ b) ++ " command") e), b,
             [Log LInfo "Running robloxmutexer"; MutexerStart (mutexer_Cmd b); Go TaskMutexerWait]
               ++ Command_events args b)
        | Ok cmd =>
            (match cmd_Run_err w with
             | Some e => Err (ErrWrap "roblox process" e)
             | None => Ok tt
             end, b,
             [Log LInfo "Running robloxmutexer"; MutexerStart (mutexer_Cmd b); Go TaskMutexerWait]
               ++ Command_events args b ++ arm_events b ++ cmd_Run_events w cmd)
        end
    end
  else
    match result (Command w args b) with
    | Err e =>
        (Err (ErrWrap (roblox_String (Type_ b) ++ " command") e), b,
         Command_events args b)
    | Ok cmd =>
        (match cmd_Run_err w with
         | Some e => Err (ErrWrap "roblox process" e)
         | None => Ok tt
         end, b,
         Command_events args b ++ arm_events b ++ cmd_Run_events w cmd)
    end.
Proof.
  destruct (Command_run w args b) as [Ha He].
  unfold Run_launch, Run_mutexer, wants_mutexer, call, when.
  unfold bind at 1 2. unfold get at 1. cbn [fst snd].
  destruct (config.MultipleInstances (GlobalConfig b) && BinaryType_eqb (Type_ b) Player).
  - unfold bind at 1 2 3. unfold emit at 1 2. cbn [app].
    destruct (mutexer_Start_err w) as [e|]; [reflexivity|].
    unfold ret at 1. unfold emit at 1. unfold bind at 1 2. unfold get at 1.
    cbn [app]. unfold wrapErr at 1.
    unfold result, after, events in *.
    destruct (Command w args b) as [[[cmd|e] b1] t1]; cbn in *; subst; [|reflexivity].
    unfold bind, emit, wrapErr. rewrite cmd_Run_run. unfold arm_events.
    destruct (cmd_Run_err w); cbn; rewrite <- ?app_assoc; reflexivity.
  - unfold ret at 1. unfold bind at 1 2. unfold get at 1.
    cbn [app]. unfold wrapErr at 1.
    unfold result, after, events in *.
    destruct (Command w args b) as [[[cmd|e] b1] t1]; cbn in *; subst;
      [|reflexivity].
    unfold bind, emit, wrapErr. rewrite cmd_Run_run. unfold arm_events.
    destruct (cmd_Run_err w); cbn; rewrite <- ?app_assoc; reflexivity.
Qed.

Lemma Run_run (w : RunWorld) (args : list string) (b : Binary) :
  let c := Run_connect w b in
  let l := Run_launch w args (after c) in
  Run w args b =
  (result l, after l,
   Invoke (FnRun args) :: events c ++ events l ++
   match result c with Ok true => [ActivityClose] | _ => [] end).
Proof.
  cbv zeta. unfold Run. unfold bind at 1 2. unfold emit at 1.
  rewrite Run_connect_run.
  destruct (config.DiscordRPC (Config_load b));
    [destruct (Connect_err w)|]; unfold defer, result, after, events; cbn [fst snd];
    destruct (Run_launch w args _) as [[r b2] t2]; cbn; rewrite ?app_nil_r; reflexivity.
Qed.

Lemma wants_mutexer_store (cb : config.Binary) (b : Binary) :
  wants_mutexer (Config_store cb b) = wants_mutexer b.
Proof. unfold wants_mutexer, Config_store. now destruct (Config b). Qed.

Lemma wants_mutexer_after_connect (w : RunWorld) (b : Binary) :
  wants_mutexer (after (Run_connect w b)) = wants_mutexer b.
Proof.
  rewrite Run_connect_run.
  destruct (config.DiscordRPC (Config_load b)); [destruct (Connect_err w)|];
    unfold after; cbn [fst snd]; try reflexivity.
  apply wants_mutexer_store.
Qed.

Lemma Type_after_connect (w : RunWorld) (b : Binary) :
  Type_ (after (Run_connect w b)) = Type_ b.
Proof.
  rewrite Run_connect_run.
  destruct (config.DiscordRPC (Config_load b)); [destruct (Connect_err w)|];
    unfold after; cbn [fst snd]; try reflexivity.
  unfold Config_store. now destruct (Config b).
Qed.

Lemma mutexer_Cmd_after_connect (w : RunWorld) (b : Binary) :
  mutexer_Cmd (after (Run_connect w b)) = mutexer_Cmd b.
Proof.
  rewrite Run_connect_run.
  destruct (config.DiscordRPC (Config_load b)); [destruct (Connect_err w)|];
    unfold after; cbn [fst snd]; try reflexivity.
  unfold mutexer_Cmd, Config_store. now destruct (Config b).
Qed.

Lemma connect_events_no (p : Event -> bool) (w : RunWorld) (b : Binary) :
  p ActivityConnect = false -> (forall l s, p (Log l s) = false) ->
  filter p (events (Run_connect w b)) = [].
Proof.
  intros H1 H2. rewrite Run_connect_run.
  destruct (config.DiscordRPC (Config_load b)); [destruct (Connect_err w)|];
    unfold events; cbn; now rewrite ?H1, ?H2.
Qed.

Lemma Run_events (w : RunWorld) (args : list string) (b : Binary) :
  events (Run w args b) =
  Invoke (FnRun args) :: events (Run_connect w b) ++
  events (Run_launch w args (after (Run_connect w b))) ++
  match result (Run_connect w b) with Ok true => [ActivityClose] | _ => [] end.
Proof. now rewrite Run_run. Qed.

Lemma Run_result (w : RunWorld) (args : list string) (b : Binary) :
  result (Run w args b) = result (Run_launch w args (after (Run_connect w b))).
Proof. now rewrite Run_run. Qed.

Lemma Run_after (w : RunWorld) (args : list string) (b : Binary) :
  after (Run w args b) = after (Run_connect w b).
Proof.
  rewrite Run_run. cbv zeta. unfold after at 1. cbn [fst snd].
  rewrite Run_launch_run.
  destruct (wants_mutexer _); [destruct (mutexer_Start_err w)|];
    try destruct (result (Command w args _)); reflexivity.
Qed.

Lemma close_events_no (p : Event -> bool) (r : res bool) :
  p ActivityClose = false ->
  filter p (match r with Ok true => [ActivityClose] | _ => [] end) = [].
Proof. intros H. destruct r as [[|]|]; cbn; now rewrite ?H. Qed.

Lemma Command_events_no (p : Event -> bool) (args : list string) (b : Binary) :
  (forall a, p (Invoke (FnCommand a)) = false) -> p LauncherPath = false ->
  filter p (Command_events args b) = [].
Proof.
  intros H1 H2. unfold Command_events. cbn -[Nat.leb]. rewrite H1.
  match goal with |- context [Nat.leb 1 ?n] => destruct (Nat.leb 1 n) end;
    cbn; now rewrite ?H2.
Qed.

End RunProgram.

Section Mutexer.

Context {C : Collaborators}.

Lemma Command_result_err (w : RunWorld) (args : list string) (b : Binary) (e : error) :
  result (Command w args b) = Err e -> exists e', e = ErrWrap "bad launcher" e'.
Proof.
  unfold Command, bind, emit, get, result. cbn -[Nat.leb].
  match goal with |- context [Nat.leb 1 ?n] => destruct (Nat.leb 1 n) end;
    [|discriminate].
  destruct (LauncherPath_res w) as [p|e']; [discriminate|].
  cbn. intros [= <-]. now exists e'.
Qed.

(** C8 (amended).  When multiple instances are configured and the variant
    is Player, Run starts the mutex-holder helper.  When the start fails,
    Run returns the error wrapped as [start robloxmutexer], and neither
    the goroutine that waits for the helper nor the child process is
    started.  When the start succeeds, the wait for the helper is left to
    a goroutine of its own, the child process is started unless building
    its command fails, and what the helper's [Wait] returns changes
    nothing in Run: an early exit of the helper is only logged, at error
    level, by that goroutine. *)
Theorem Run_mutexer_helper :
  forall (w : RunWorld) (args : list string) (b : Binary),
  config.MultipleInstances (GlobalConfig b) = true ->
  Type_ b = Player ->
  let o := Run w args b in
  In (MutexerStart (mutexer_Cmd b)) (events o) /\
  match mutexer_Start_err w with
  | Some e =>
      result o = Err (ErrWrap "start robloxmutexer" e) /\
      ~ In (Go TaskMutexerWait) (events o) /\
      (forall cmd, ~ In (CmdStart cmd) (events o))
  | None =>
      precedes (MutexerStart (mutexer_Cmd b)) (Go TaskMutexerWait) (events o) /\
      ((exists cmd, precedes (Go TaskMutexerWait) (CmdStart cmd) (events o)) \/
       exists e, result o = Err (ErrWrap (roblox_String Player ++ " command")
                                       (ErrWrap "bad launcher" e)))
  end /\
  (forall e, Run (with_mutexer_Wait e w) args b = Run w args b) /\
  Run_mutexerTask w =
    MutexerWait ::
    match mutexer_Wait_err w with
    | Some _ => [Log LError "robloxmutexer returned too early"]
    | None => []
    end.
Proof.
  intros w args b HM HT o. subst o.
  assert (wants_mutexer b = true) as HW
    by (unfold wants_mutexer; now rewrite HM, HT).
  rewrite Run_events, Run_result, Run_launch_run.
  rewrite wants_mutexer_after_connect, HW, Type_after_connect, HT.
  rewrite mutexer_Cmd_after_connect.
  set (b1 := after (Run_connect w b)).
  set (ec := events (Run_connect w b)).
  set (tl := match result (Run_connect w b) with Ok true => [ActivityClose] | _ => [] end).
  assert (forall p, p ActivityConnect = false -> (forall l s, p (Log l s) = false) ->
                    filter p ec = []) as Hec
    by (intros; now apply connect_events_no).
  assert (forall p, p ActivityClose = false -> filter p tl = []) as Htl
    by (intros; now apply close_events_no).
  clearbody ec tl.
  split; [|split; [|split]].
  - destruct (mutexer_Start_err w); [|destruct (result (Command w args b1))];
      unfold events; cbn [snd]; right; rewrite !in_app_iff; right; left;
      cbn; tauto.
  - destruct (mutexer_Start_err w) as [e|].
    + unfold events, result. cbn [fst snd]. split; [reflexivity|]. split.
      * apply filter_nil_not_In with (p := is_Go_MutexerWait); [|reflexivity].
        cbn [filter is_Go_MutexerWait].
        now rewrite !filter_app, Hec, Htl.
      * intros cmd.
        apply filter_nil_not_In with (p := is_CmdStart); [|reflexivity].
        cbn [filter is_CmdStart].
        now rewrite !filter_app, Hec, Htl.
    + destruct (result (Command w args b1)) as [cmd|e] eqn:EC;
        unfold events, result; cbn [fst snd].
      * split.
        -- exists (Invoke (FnRun args) :: ec ++ [Log LInfo "Running robloxmutexer"]).
           eexists. split; [cbn [app]; rewrite <- !app_assoc; cbn [app]; reflexivity|left; reflexivity].
        -- left. exists cmd.
           exists (Invoke (FnRun args) :: ec ++
                   [Log LInfo "Running robloxmutexer"; MutexerStart (mutexer_Cmd b)]).
           eexists. split; [cbn [app]; rewrite <- !app_assoc; cbn [app]; reflexivity|].
           rewrite !in_app_iff. right. right. left.
           unfold cmd_Run_events. destruct (cmd_Start_err w); left; reflexivity.
      * split.
        -- exists (Invoke (FnRun args) :: ec ++ [Log LInfo "Running robloxmutexer"]).
           eexists. split; [cbn [app]; rewrite <- !app_assoc; cbn [app]; reflexivity|left; reflexivity].
        -- right. apply Command_result_err in EC as [e' ->]. now exists e'.
  - intros e. reflexivity.
  - reflexivity.
Qed.

End Mutexer.

(** The theorem on the sample Player binary with multiple instances. *)
Lemma Run_mutexer_helper_witness :
  config.MultipleInstances (GlobalConfig (sampleBinary true false false)) = true /\
  Type_ (sampleBinary true false false) = Player /\
  In (MutexerStart (mkCmd "wine" ["wine"; "/usr/lib/vinegar/robloxmutexer.exe"]))
     (events (Run calmRun [] (sampleBinary true false false))) /\
  Run (with_mutexer_Wait (Some (ErrNew "exit status 1")) calmRun) []
      (sampleBinary true false false) =
  Run calmRun [] (sampleBinary true false false).
Proof.
  destruct (Run_mutexer_helper calmRun [] (sampleBinary true false false)
              eq_refl eq_refl) as (H1 & _ & H3 & _).
  split; [reflexivity|]. split; [reflexivity|]. split; [exact H1|apply H3].
Defined.

(** C8 as stated fails when the helper cannot be started: Run returns an
    error because of the helper and the child process is never started. *)
Lemma Run_aborts_when_mutexer_start_fails :
  let o := Run mutexerFailsRun [] (sampleBinary true false false) in
  events o = [Invoke (FnRun []); Log LInfo "Running robloxmutexer";
              MutexerStart (mkCmd "wine" ["wine"; "/usr/lib/vinegar/robloxmutexer.exe"])] /\
  filter is_CmdStart (events o) = [] /\
  result o =
    Err (ErrWrap "start robloxmutexer" (ErrNew "exec: wine: executable file not found")).
Proof.
  cbv zeta. repeat split; reflexivity.
Qed.

(* ================================================================== *)
(** ** The splash goroutines *)

(** C6 (amended).  The splash goroutine of main delivers the interrupt
    signal to the host process, once, whenever [Splash.Run] returns, with
    or without an error.  The splash goroutine of Binary.Main delivers it
    exactly when [Splash.Run] returns [splash.ErrClosed], the error of a
    window closed by the user; when [Splash.Run] returns any other error
    the goroutine ends the host process through [log.Fatalf] without a
    signal, and when it returns nil the goroutine does nothing more. *)
Theorem splash_task_interrupt :
  (forall err, filter is_SignalSelf (main_splashTask err) = [SignalSelf]) /\
  (forall err, In SignalSelf (Main_splashTask err) <-> err = Some ErrClosed) /\
  Main_splashTask (Some ErrClosed) =
    [SplashRun; Log LWarn "Splash window closed!"; SignalSelf] /\
  (forall e, e <> ErrClosed ->
     Main_splashTask (Some e) = [SplashRun; Log LFatal "splash: %s"; Exit 1]) /\
  Main_splashTask None = [SplashRun].
Proof.
  split; [|split; [|split; [reflexivity|split; [|reflexivity]]]].
  - intros [e|]; reflexivity.
  - intros [[| |]|]; cbn; split; intros H; try discriminate; try tauto;
      repeat (destruct H as [H|H]; [discriminate|]); destruct H.
  - intros [| |] He; [contradiction|reflexivity|reflexivity].
Qed.

(** The theorem on an internal error of the splash window. *)
Lemma splash_task_interrupt_witness :
  ErrNew "gio: window creation failed" <> ErrClosed /\
  Main_splashTask (Some (ErrNew "gio: window creation failed")) =
  [SplashRun; Log LFatal "splash: %s"; Exit 1].
Proof.
  destruct splash_task_interrupt as (_ & _ & _ & H & _).
  split; [discriminate|]. apply H. discriminate.
Defined.

(** C6 as stated fails in Binary.Main: on an internal error of the splash
    window, and on a nil return, no interrupt signal is delivered. *)
Lemma Main_splash_internal_error_no_interrupt :
  ~ In SignalSelf (Main_splashTask (Some (ErrNew "gio: window creation failed"))) /\
  ~ In SignalSelf (Main_splashTask None).
Proof.
  split; vm_compute.
  - intros [H|[H|[H|[]]]]; discriminate.
  - intros [H|[]]; discriminate.
Qed.

(* ================================================================== *)
(** ** RobloxLogFile *)

Section Discovery.

Context {C : Collaborators}.

(** The loop returns the first file creation that arrives in time,
    whatever else arrived before it. *)
Lemma RobloxLogFile_wait_hit (pre post : list (Z * Occurrence))
      (t : Z) (name : string) (op : fsnotify.Op) :
  Forall in_time pre -> Forall (fun o => is_create o = false) pre ->
  (t < timeout)%Z -> fsnotify.Has op fsnotify.Create = true ->
  RobloxLogFile_wait (pre ++ (t, FsEvent name op) :: post) =
  ((name, None), watcher_error_logs pre).
Proof.
  intros Ht Hc Hlt Hop. induction pre as [|[u o] pre IH]; cbn [app RobloxLogFile_wait].
  - apply Z.ltb_lt in Hlt. now rewrite Hlt, Hop.
  - inversion Ht as [|? ? Hu Ht']; subst. inversion Hc as [|? ? Ho Hc']; subst.
    unfold in_time in Hu. cbn [fst] in Hu. apply Z.ltb_lt in Hu. rewrite Hu.
    destruct o as [n op'|e].
    + unfold is_create in Ho. cbn [snd] in Ho. rewrite Ho. now apply IH.
    + rewrite (IH Ht' Hc'). reflexivity.
Qed.

(** The loop returns the timeout error when no file creation arrives in
    time. *)
Lemma RobloxLogFile_wait_miss (pre post : list (Z * Occurrence)) :
  Forall in_time pre -> Forall (fun o => is_create o = false) pre ->
  post = [] \/ (exists t o rest, post = (t, o) :: rest /\ (timeout <= t)%Z) ->
  RobloxLogFile_wait (pre ++ post) =
  ((EmptyString, Some timeout_error), watcher_error_logs pre ++ [TimerFired]).
Proof.
  intros Ht Hc Hpost. induction pre as [|[u o] pre IH]; cbn [app RobloxLogFile_wait].
  - destruct Hpost as [->|(t & o & rest & -> & Hle)]; [reflexivity|].
    cbn [RobloxLogFile_wait]. apply Z.ltb_ge in Hle. now rewrite Hle.
  - inversion Ht as [|? ? Hu Ht']; subst. inversion Hc as [|? ? Ho Hc']; subst.
    unfold in_time in Hu. cbn [fst] in Hu. apply Z.ltb_lt in Hu. rewrite Hu.
    destruct o as [n op'|e].
    + unfold is_create in Ho. cbn [snd] in Ho. rewrite Ho. now apply IH.
    + rewrite (IH Ht' Hc'). reflexivity.
Qed.

Lemma RobloxLogFile_wait_events (occ : list (Z * Occurrence)) :
  Forall (fun e => e = TimerFired \/ exists s, e = Log LError s)
         (snd (RobloxLogFile_wait occ)).
Proof.
  induction occ as [|[t o] occ IH]; cbn [RobloxLogFile_wait].
  - repeat constructor.
  - destruct (t <? timeout)%Z; [|repeat constructor].
    destruct o as [n op|e].
    + destruct (fsnotify.Has op fsnotify.Create); [constructor|exact IH].
    + destruct (RobloxLogFile_wait occ) as [r evs]. cbn [snd] in *.
      constructor; [right; eauto|exact IH].
Qed.

(** The result and the events of a discovery whose watch was installed. *)
Lemma RobloxLogFile_armed (w : WatchWorld) (pfx : wine_Prefix) :
  In (NewTimer timeout) (snd (RobloxLogFile w pfx)) ->
  exists ad,
    AppDataDir_res w = Ok ad /\
    let dir := filepath_Join [ad; "Local"; "Roblox"; "logs"] in
    RobloxLogFile w pfx =
    (fst (RobloxLogFile_wait (occurrences w)),
     [Invoke FnRobloxLogFile; AppDataDir; MkdirAll dir; NewWatcher;
      WatcherAdd dir; NewTimer timeout] ++
     snd (RobloxLogFile_wait (occurrences w)) ++ [WatcherClose]).
Proof.
  unfold RobloxLogFile.
  destruct (AppDataDir_res w) as [ad|e];
    [|intros [H|[H|[]]]; discriminate].
  destruct (MkdirAll_err w);
    [intros H; repeat (destruct H as [H|H]; [discriminate|]); destruct H|].
  destruct (NewWatcher_err w);
    [intros H; repeat (destruct H as [H|H]; [discriminate|]); destruct H|].
  destruct (Watcher_Add_err w);
    [intros H; repeat (destruct H as [H|H]; [discriminate|]); destruct H|].
  intros _. exists ad. split; [reflexivity|].
  now destruct (RobloxLogFile_wait (occurrences w)).
Qed.

Lemma filter_wait_events (occ : list (Z * Occurrence)) :
  filter is_Log_or_Timer (snd (RobloxLogFile_wait occ)) = snd (RobloxLogFile_wait occ).
Proof.
  pose proof (RobloxLogFile_wait_events occ) as H.
  induction H as [|e l He _ IH]; [reflexivity|].
  cbn. rewrite IH. destruct He as [->|[s ->]]; reflexivity.
Qed.

(** The loop ends with a path and no error, or with the empty path and
    the timeout error; its events are the log lines of watcher errors
    and the expiry of the timer. *)
Lemma RobloxLogFile_wait_result (occ : list (Z * Occurrence)) :
  ((exists name, fst (RobloxLogFile_wait occ) = (name, None)) \/
   fst (RobloxLogFile_wait occ) = (EmptyString, Some timeout_error)) /\
  Forall is_wait_event (snd (RobloxLogFile_wait occ)).
Proof.
  induction occ as [|[t o] occ IH]; cbn [RobloxLogFile_wait].
  - split; [now right|]. repeat constructor.
  - destruct (t <? timeout)%Z; [|split; [now right|repeat constructor]].
    destruct o as [n op|e].
    + destruct (fsnotify.Has op fsnotify.Create); [|exact IH].
      split; [left; now exists n|constructor].
    + destruct (RobloxLogFile_wait occ) as [r evs]. cbn [fst snd] in *.
      destruct IH as [Hr He]. split; [exact Hr|].
      constructor; [now right|exact He].
Qed.

(** A discovery whose setup calls all succeed. *)
Lemma RobloxLogFile_ready (w : WatchWorld) (pfx : wine_Prefix) (ad : string) :
  watch_ready w ad ->
  let dir := filepath_Join [ad; "Local"; "Roblox"; "logs"] in
  RobloxLogFile w pfx =
  (fst (RobloxLogFile_wait (occurrences w)),
   [Invoke FnRobloxLogFile; AppDataDir; MkdirAll dir; NewWatcher;
    WatcherAdd dir; NewTimer timeout] ++
   snd (RobloxLogFile_wait (occurrences w)) ++ [WatcherClose]).
Proof.
  intros (Had & Hm & Hn & Ha). unfold RobloxLogFile.
  rewrite Had, Hm, Hn, Ha.
  now destruct (RobloxLogFile_wait (occurrences w)).
Qed.

(** C4.  The timer of a discovery is set to 6 seconds.  In every call
    the log directory is created ([os.MkdirAll]) before the watch on it
    is installed: whenever the application data directory is known, the
    call to create the log directory is the first thing done with it;
    when that call fails, its error is returned wrapped and neither a
    watch nor a timer exists; when it succeeds and the watcher is made,
    the watch is installed on that directory, after its creation.  The
    timer is started exactly when the setup calls all succeeded.  Then
    the call creates the directory, makes the watcher, installs the
    watch, starts the timer, waits, and closes the watcher, and it
    returns a path and no error, or the empty path and the timeout
    error: when a file-creation event arrives before the timer expires
    and no file creation arrived before it, the path of that event and
    no error are returned; when no file-creation event arrives before
    the timer expires, the empty path and the timeout error are
    returned; in both cases the watcher errors and the other events that
    arrived in the meantime did not end the wait, and each watcher error
    was logged. *)
Theorem RobloxLogFile_discovery :
  forall (w : WatchWorld) (pfx : wine_Prefix),
  let r := fst (RobloxLogFile w pfx) in
  let evs := snd (RobloxLogFile w pfx) in
  timeout = (6 * 1000000000)%Z /\
  (forall d, In (WatcherAdd d) evs -> precedes (MkdirAll d) (WatcherAdd d) evs) /\
  (forall ad, AppDataDir_res w = Ok ad ->
     let dir := filepath_Join [ad; "Local"; "Roblox"; "logs"] in
     (exists rest,
        evs = [Invoke FnRobloxLogFile; AppDataDir; MkdirAll dir] ++ rest) /\
     (forall e, MkdirAll_err w = Some e ->
        r = (EmptyString, Some (ErrWrap "create roblox log dir" e)) /\
        evs = [Invoke FnRobloxLogFile; AppDataDir; MkdirAll dir]) /\
     (MkdirAll_err w = None -> NewWatcher_err w = None ->
        precedes (MkdirAll dir) (WatcherAdd dir) evs)) /\
  (In (NewTimer timeout) evs <-> exists ad, watch_ready w ad) /\
  (forall ad, watch_ready w ad ->
     let dir := filepath_Join [ad; "Local"; "Roblox"; "logs"] in
     let setup := [Invoke FnRobloxLogFile; AppDataDir; MkdirAll dir; NewWatcher;
                   WatcherAdd dir; NewTimer timeout] in
     (exists wevs, evs = setup ++ wevs ++ [WatcherClose] /\
                   Forall is_wait_event wevs) /\
     ((exists name, r = (name, None)) \/
      r = (EmptyString, Some timeout_error)) /\
     (forall pre t name op post,
        occurrences w = pre ++ (t, FsEvent name op) :: post ->
        Forall in_time pre -> Forall (fun o => is_create o = false) pre ->
        (t < timeout)%Z -> fsnotify.Has op fsnotify.Create = true ->
        r = (name, None) /\
        evs = setup ++ watcher_error_logs pre ++ [WatcherClose]) /\
     (forall pre post,
        occurrences w = pre ++ post ->
        Forall in_time pre -> Forall (fun o => is_create o = false) pre ->
        (post = [] \/ exists t o rest, post = (t, o) :: rest /\ (timeout <= t)%Z) ->
        r = (EmptyString, Some timeout_error) /\
        evs = setup ++ watcher_error_logs pre ++ [TimerFired; WatcherClose])).
Proof.
  intros w pfx r evs. split; [reflexivity|].
  split; [|split; [|split]].
  - subst evs. intros d. unfold RobloxLogFile.
    destruct (AppDataDir_res w) as [ad|e];
      [|intros [H|[H|[]]]; discriminate].
    destruct (MkdirAll_err w);
      [intros H; repeat (destruct H as [H|H]; [discriminate|]); destruct H|].
    destruct (NewWatcher_err w);
      [intros H; repeat (destruct H as [H|H]; [discriminate|]); destruct H|].
    destruct (Watcher_Add_err w).
    + intros H. cbn [snd] in *.
      repeat (destruct H as [H|H]; [try discriminate|]); [|destruct H].
      injection H as <-.
      exists [Invoke FnRobloxLogFile; AppDataDir]. eexists.
      split; [reflexivity|]. cbn. tauto.
    + pose proof (RobloxLogFile_wait_events (occurrences w)) as Hw.
      destruct (RobloxLogFile_wait (occurrences w)) as [r0 wevs].
      cbn [snd] in *. intros H.
      assert (d = filepath_Join [ad; "Local"; "Roblox"; "logs"]) as ->.
      { rewrite !in_app_iff in H. destruct H as [H|[H|H]].
        - repeat (destruct H as [H|H]; [try discriminate|]); [|destruct H].
          now injection H.
        - rewrite Forall_forall in Hw. apply Hw in H as [H|[s H]]; discriminate.
        - destruct H as [H|[]]; discriminate. }
      exists [Invoke FnRobloxLogFile; AppDataDir]. eexists.
      split; [reflexivity|]. cbn. tauto.
  - intros ad Had dir. subst r evs dir. unfold RobloxLogFile. rewrite Had.
    split; [|split].
    + destruct (MkdirAll_err w); [eexists; reflexivity|].
      destruct (NewWatcher_err w); [eexists; reflexivity|].
      destruct (Watcher_Add_err w); [eexists; reflexivity|].
      destruct (RobloxLogFile_wait (occurrences w)). eexists. reflexivity.
    + intros e ->. split; reflexivity.
    + intros -> ->.
      exists [Invoke FnRobloxLogFile; AppDataDir].
      destruct (Watcher_Add_err w).
      * eexists. split; [reflexivity|]. cbn. tauto.
      * destruct (RobloxLogFile_wait (occurrences w)). eexists.
        split; [reflexivity|]. cbn. tauto.
  - split.
    + intros H. destruct (RobloxLogFile_armed w pfx H) as (ad & Had & _).
      exists ad. subst evs. unfold RobloxLogFile in H. rewrite Had in H.
      unfold watch_ready. rewrite Had.
      destruct (MkdirAll_err w);
        [repeat (destruct H as [H|H]; [discriminate|]); destruct H|].
      destruct (NewWatcher_err w);
        [repeat (destruct H as [H|H]; [discriminate|]); destruct H|].
      destruct (Watcher_Add_err w);
        [repeat (destruct H as [H|H]; [discriminate|]); destruct H|].
      auto.
    + intros [ad Hr]. subst evs. rewrite (RobloxLogFile_ready w pfx ad Hr).
      cbn. auto 10.
  - intros ad Hr dir setup. subst r evs.
    rewrite (RobloxLogFile_ready w pfx ad Hr). cbn [fst snd]. fold dir. fold setup.
    destruct (RobloxLogFile_wait_result (occurrences w)) as [Hres Hev].
    split; [eexists; split; [reflexivity|exact Hev]|].
    split; [exact Hres|]. split.
    + intros pre t name op post Hocc Ht Hc Hlt Hop. rewrite Hocc.
      rewrite (RobloxLogFile_wait_hit pre post t name op Ht Hc Hlt Hop).
      split; reflexivity.
    + intros pre post Hocc Ht Hc Hpost. rewrite Hocc.
      rewrite (RobloxLogFile_wait_miss pre post Ht Hc Hpost).
      cbn [fst snd]. split; [reflexivity|].
      now rewrite <- app_assoc.
Qed.

End Discovery.

(** The theorem on two discoveries: one in which the log file is created
    after 2 s, behind a watcher error and a write event, and one in which
    it is created after 7 s. *)
Lemma RobloxLogFile_discovery_witness :
  watch_ready noisyWatch "/ad" /\
  @RobloxLogFile sampleCollaborators noisyWatch "/prefixes/player" =
    (("/ad/Local/Roblox/logs/0.log", None),
     [Invoke FnRobloxLogFile; AppDataDir; MkdirAll "/ad/Local/Roblox/logs";
      NewWatcher; WatcherAdd "/ad/Local/Roblox/logs"; NewTimer timeout;
      Log LError "Recieved fsnotify watcher error"; WatcherClose]) /\
  watch_ready lateWatch "/ad" /\
  @RobloxLogFile sampleCollaborators lateWatch "/prefixes/player" =
    ((EmptyString, Some timeout_error),
     [Invoke FnRobloxLogFile; AppDataDir; MkdirAll "/ad/Local/Roblox/logs";
      NewWatcher; WatcherAdd "/ad/Local/Roblox/logs"; NewTimer timeout;
      Log LError "Recieved fsnotify watcher error"; TimerFired; WatcherClose]).
Proof.
  assert (watch_ready noisyWatch "/ad") as H1 by (repeat split).
  assert (watch_ready lateWatch "/ad") as H2 by (repeat split).
  destruct (@RobloxLogFile_discovery sampleCollaborators noisyWatch "/prefixes/player")
    as (_ & _ & _ & _ & Hn).
  destruct (@RobloxLogFile_discovery sampleCollaborators lateWatch "/prefixes/player")
    as (_ & _ & _ & _ & Hl).
  destruct (Hn "/ad" H1) as (_ & _ & Hhit & _).
  destruct (Hl "/ad" H2) as (_ & _ & _ & Hmiss).
  set (noise := [(1 * time_Second, FsError (ErrNew "inotify: queue overflow"));
                 (1 * time_Second, FsEvent "/ad/Local/Roblox/logs/old.log" 2%N)]%Z).
  set (overflow := [(1 * time_Second, FsError (ErrNew "inotify: queue overflow"))]%Z).
  assert (Forall in_time noise) as Tn by (repeat constructor).
  assert (Forall (fun o => is_create o = false) noise) as Cn by (repeat constructor).
  assert (Forall in_time overflow) as To by (repeat constructor).
  assert (Forall (fun o => is_create o = false) overflow) as Co by (repeat constructor).
  destruct (Hhit noise
    (2 * time_Second)%Z "/ad/Local/Roblox/logs/0.log" fsnotify.Create
    [(3 * time_Second, FsEvent "/ad/Local/Roblox/logs/1.log" fsnotify.Create)]%Z
    eq_refl Tn Cn eq_refl eq_refl) as [Hr1 He1].
  assert (exists t o rest,
            [(7 * time_Second, FsEvent "/ad/Local/Roblox/logs/0.log" fsnotify.Create)]%Z
            = (t, o) :: rest /\ (timeout <= t)%Z) as Late
    by (do 3 eexists; split; [reflexivity|vm_compute; discriminate]).
  destruct (Hmiss overflow
    [(7 * time_Second, FsEvent "/ad/Local/Roblox/logs/0.log" fsnotify.Create)]%Z
    eq_refl To Co (or_intror Late)) as [Hr2 He2].
  split; [exact H1|]. split; [|split; [exact H2|]].
  - apply injective_projections; [exact Hr1|exact He1].
  - apply injective_projections; [exact Hr2|exact He2].
Defined.

(* ================================================================== *)
(** ** The post-launch task *)

Section PostLaunch.

Context {C : Collaborators}.

Lemma int32_id (x : Z) : pid_ok x -> int32 x = x.
Proof.
  unfold pid_ok, int32. intros H.
  rewrite Z.mod_small by lia. lia.
Qed.

Lemma Tail_line_run (w : WatchWorld) (line : string) (b : Binary) :
  Tail_line w line b =
  (Ok tt, b, Tail_line_events w (config.DiscordRPC (Config_load b)) line).
Proof.
  unfold Tail_line, Tail_line_events, bind, emit, get, when, ret.
  destruct (config.DiscordRPC (Config_load b)); [|reflexivity].
  destruct (HandleRobloxLog_err w line); reflexivity.
Qed.

Lemma Tail_lines_run (w : WatchWorld) (lines : list string) (b : Binary) :
  range lines (Tail_line w) b =
  (Ok tt, b,
   flat_map (Tail_line_events w (config.DiscordRPC (Config_load b))) lines).
Proof.
  induction lines as [|line lines IH]; [reflexivity|].
  cbn [range flat_map]. unfold bind. now rewrite Tail_line_run, IH.
Qed.

Lemma Tail_run (w : WatchWorld) (name : string) (b : Binary) :
  Tail w name b =
  (Ok tt, b, Tail_events w (config.DiscordRPC (Config_load b)) name).
Proof.
  unfold Tail, Tail_events. unfold bind at 1 2. unfold emit at 1 2. cbn [app].
  destruct (TailFile_err w); [reflexivity|].
  now rewrite Tail_lines_run.
Qed.

Lemma RegisterGameMode_run (w : WatchWorld) (pid : Z) (b : Binary) :
  RegisterGameMode w pid b = (Ok tt, b, RegisterGameMode_events w pid).
Proof.
  unfold RegisterGameMode, RegisterGameMode_events, bind, emit. cbn.
  destruct (DBus_Connect_err w); [reflexivity|].
  destruct (DBus_Call_err w) as [e|]; [|reflexivity].
  destruct (DBus_IsNoObject w e); reflexivity.
Qed.

(** The post-launch task once the child is started, by the outcome of the
    discovery. *)
Lemma Run_postLaunchTask_run (w : World) (b : Binary) :
  cmd_Start_err (wRun w) = None ->
  Run_postLaunchTask w b =
  (Ok Returned, b,
   snd (RobloxLogFile (wWatch w) (Prefix b)) ++
   match snd (fst (RobloxLogFile (wWatch w) (Prefix b))) with
   | Some _ => [Log LError "Failed to find Roblox log file"]
   | None =>
       SplashClose ::
       (if config.GameMode (Config_load b)
        then RegisterGameMode_events (wWatch w) (int32 (Pid (wRun w)))
        else []) ++
       Tail_events (wWatch w) (config.DiscordRPC (Config_load b))
                   (fst (fst (RobloxLogFile (wWatch w) (Prefix b))))
   end).
Proof.
  intros H. unfold Run_postLaunchTask. rewrite H.
  unfold bind at 1. unfold get at 1.
  destruct (RobloxLogFile (wWatch w) (Prefix b)) as [[lf [e|]] evs]; cbn [fst snd].
  - reflexivity.
  - unfold bind at 1. unfold emits at 1. unfold bind at 1. unfold emit at 1.
    unfold bind at 1. unfold get at 1. unfold bind at 1.
    destruct (config.GameMode (Config_load b)); cbn [when].
    + rewrite RegisterGameMode_run. unfold bind at 1. rewrite Tail_run.
      unfold ret. cbn. now rewrite app_nil_r.
    + unfold ret at 1. unfold bind at 1. rewrite Tail_run.
      unfold ret. cbn. now rewrite app_nil_r.
Qed.

Lemma RobloxLogFile_events_no (p : Event -> bool) (w : WatchWorld) (pfx : wine_Prefix) :
  p (Invoke FnRobloxLogFile) = false -> p AppDataDir = false ->
  (forall d, p (MkdirAll d) = false) -> p NewWatcher = false ->
  (forall d, p (WatcherAdd d) = false) -> p WatcherClose = false ->
  (forall n, p (NewTimer n) = false) -> p TimerFired = false ->
  (forall l s, p (Log l s) = false) ->
  filter p (snd (RobloxLogFile w pfx)) = [].
Proof.
  intros H1 H2 H3 H4 H5 H6 H7 H8 H9. unfold RobloxLogFile.
  destruct (AppDataDir_res w) as [ad|e]; [|cbn; now rewrite H1, H2].
  destruct (MkdirAll_err w); [cbn; now rewrite H1, H2, H3|].
  destruct (NewWatcher_err w); [cbn; now rewrite H1, H2, H3, H4|].
  destruct (Watcher_Add_err w); [cbn; now rewrite H1, H2, H3, H4, H5, H6|].
  pose proof (RobloxLogFile_wait_events (occurrences w)) as Hw.
  destruct (RobloxLogFile_wait (occurrences w)) as [r evs]. cbn [snd] in *.
  rewrite !filter_app. cbn. rewrite H1, H2, H3, H4, H5, H6, H7.
  rewrite app_nil_r. apply filter_none.
  eapply Forall_impl; [|exact Hw]. intros e [->|[s ->]]; auto.
Qed.

Lemma Tail_events_no (p : Event -> bool) (w : WatchWorld) (rpc : bool) (name : string) :
  (forall l s, p (Log l s) = false) -> (forall s, p (Fprintln s) = false) ->
  (forall s, p (TailFile s) = false) ->
  (rpc = true -> forall s, p (HandleRobloxLog s) = false) ->
  filter p (Tail_events w rpc name) = if p (Invoke (FnTail name)) then [Invoke (FnTail name)] else [].
Proof.
  intros H1 H2 H3 H4. unfold Tail_events. cbn [filter]. rewrite H3.
  assert (filter p match TailFile_err w with
                   | Some _ => [Log LError "Could not tail Roblox log file"]
                   | None => flat_map (Tail_line_events w rpc) (Lines w)
                   end = []) as ->.
  { destruct (TailFile_err w); [cbn; now rewrite H1|].
    induction (Lines w) as [|line lines IH]; [reflexivity|].
    cbn [flat_map]. rewrite filter_app, IH, app_nil_r.
    unfold Tail_line_events. cbn [filter]. rewrite H2.
    destruct rpc; [|reflexivity]. cbn [filter]. rewrite (H4 eq_refl).
    destruct (HandleRobloxLog_err w line); cbn; now rewrite ?H1. }
  now destruct (p (Invoke (FnTail name))).
Qed.

Lemma RegisterGameMode_events_no (p : Event -> bool) (w : WatchWorld) (pid : Z) :
  (forall l s, p (Log l s) = false) -> p DBusConnect = false ->
  (forall n, p (DBusCall n) = false) ->
  filter p (RegisterGameMode_events w pid) =
  if p (Invoke (FnRegisterGameMode pid)) then [Invoke (FnRegisterGameMode pid)] else [].
Proof.
  intros H1 H2 H3. unfold RegisterGameMode_events. cbn [filter]. rewrite H2.
  assert (filter p match DBus_Connect_err w with
                   | Some _ => [Log LError "Failed to connect to D-Bus"]
                   | None =>
                       DBusCall pid ::
                       match DBus_Call_err w with
                       | Some err =>
                           if negb (DBus_IsNoObject w err)
                           then [Log LError "Failed to register to GameMode"]
                           else []
                       | None => []
                       end
                   end = []) as ->.
  { destruct (DBus_Connect_err w); [cbn; now rewrite H1|].
    cbn [filter]. rewrite H3.
    destruct (DBus_Call_err w) as [e|]; [|reflexivity].
    destruct (DBus_IsNoObject w e); cbn; now rewrite ?H1. }
  now destruct (p (Invoke (FnRegisterGameMode pid))).
Qed.

End PostLaunch.

Section PostLaunchOrder.

Context {C : Collaborators}.

Lemma Run_after_fields (w : RunWorld) (args : list string) (b : Binary) :
  Prefix (after (Run w args b)) = Prefix b /\
  config.GameMode (Config_load (after (Run w args b))) =
  config.GameMode (Config_load b).
Proof.
  rewrite Run_after, Run_connect_run.
  destruct (config.DiscordRPC (Config_load b)); [destruct (Connect_err w)|];
    unfold after; cbn [fst snd]; try (split; reflexivity).
  rewrite Config_load_store. split; [|reflexivity].
  unfold Config_store. now destruct (Config b).
Qed.

(** Run gets as far as the [go] statement of line 265 only when the
    helper and the command were no obstacle; its result is then the one
    of [cmd.Run]. *)
Lemma Run_spawned (w : RunWorld) (args : list string) (b : Binary) :
  In (Go TaskPostLaunch) (events (Run w args b)) ->
  result (Run w args b) =
  match cmd_Run_err w with
  | Some e => Err (ErrWrap "roblox process" e)
  | None => Ok tt
  end.
Proof.
  rewrite Run_events, Run_result, Run_launch_run.
  set (b1 := after (Run_connect w b)).
  intros H.
  destruct (wants_mutexer b1); [destruct (mutexer_Start_err w)|];
    try (destruct (result (Command w args b1)); [reflexivity|]);
    exfalso; revert H; unfold events at 2; cbn [snd];
    apply filter_nil_not_In with (p := is_Go_PostLaunch); try reflexivity;
    cbn [filter is_Go_PostLaunch]; rewrite !filter_app;
    rewrite connect_events_no, close_events_no, ?Command_events_no by reflexivity;
    reflexivity.
Qed.

(** C2.  In a run in which Run starts the post-launch task and the child
    process is started (so that the task leaves its wait loop and calls
    the discovery), with a process id that fits 32 bits: Run's result is
    the wrapped error of the child's exit, or nil, whatever the discovery
    returns.  When the discovery succeeds, the task closes the Status
    Reporter once, then, when GameMode is enabled, invokes
    RegisterGameMode once with the child's process id (and never when it
    is disabled), then invokes Tail once on the discovered file, all of
    this after the events of the discovery.  When the discovery fails the
    task only logs the failure after the events of the discovery: it
    neither closes the Status Reporter nor registers nor tails. *)
Theorem Run_post_launch :
  forall (w : World) (args : list string) (b : Binary),
  let o := Run (wRun w) args b in
  let t := Run_postLaunchTask w (after o) in
  let d := RobloxLogFile (wWatch w) (Prefix b) in
  In (Go TaskPostLaunch) (events o) ->
  cmd_Start_err (wRun w) = None ->
  pid_ok (Pid (wRun w)) ->
  result o =
    match cmd_Wait_err (wRun w) with
    | Some e => Err (ErrWrap "roblox process" e)
    | None => Ok tt
    end /\
  result t = Ok Returned /\
  match snd (fst d) with
  | None =>
      let lf := fst (fst d) in
      let registrations :=
        if config.GameMode (Config_load b)
        then [Invoke (FnRegisterGameMode (Pid (wRun w)))] else [] in
      (exists reg tl,
         events t = snd d ++ SplashClose :: reg ++
                    Invoke (FnTail lf) :: TailFile lf :: tl /\
         filter is_Invoke_RegisterGameMode reg = registrations) /\
      filter is_SplashClose (events t) = [SplashClose] /\
      filter is_Invoke_RegisterGameMode (events t) = registrations /\
      filter is_Invoke_Tail (events t) = [Invoke (FnTail lf)]
  | Some _ =>
      events t = snd d ++ [Log LError "Failed to find Roblox log file"] /\
      filter is_SplashClose (events t) = [] /\
      filter is_Invoke_RegisterGameMode (events t) = [] /\
      filter is_Invoke_Tail (events t) = []
  end.
Proof.
  intros w args b o t d Hgo Hstart Hpid. subst o t d.
  split.
  { rewrite (Run_spawned _ _ _ Hgo). unfold cmd_Run_err. now rewrite Hstart. }
  rewrite (Run_postLaunchTask_run _ _ Hstart).
  destruct (Run_after_fields (wRun w) args b) as [-> ->].
  rewrite (int32_id _ Hpid).
  unfold result at 1, events. cbn [fst snd].
  split; [reflexivity|].
  set (rpc := config.DiscordRPC (Config_load (after (Run (wRun w) args b)))).
  pose proof (fun p => RobloxLogFile_events_no p (wWatch w) (Prefix b)) as Hd.
  destruct (RobloxLogFile (wWatch w) (Prefix b)) as [[lf [e|]] devs].
  - cbn [fst snd] in *. split; [reflexivity|].
    rewrite !filter_app, !Hd by reflexivity. repeat split; reflexivity.
  - cbn [fst snd] in *. cbv zeta. split; [|split; [|split]].
    + exists (if config.GameMode (Config_load b)
              then RegisterGameMode_events (wWatch w) (Pid (wRun w)) else []).
      unfold Tail_events at 1. eexists. split; [reflexivity|].
      destruct (config.GameMode (Config_load b)); [|reflexivity].
      now rewrite RegisterGameMode_events_no.
    + rewrite filter_app, Hd by reflexivity. cbn [filter is_SplashClose app].
      rewrite filter_app, Tail_events_no by reflexivity.
      destruct (config.GameMode (Config_load b)); [|reflexivity].
      now rewrite RegisterGameMode_events_no.
    + rewrite filter_app, Hd by reflexivity.
      cbn [filter is_Invoke_RegisterGameMode app].
      rewrite filter_app, Tail_events_no by reflexivity. cbn.
      destruct (config.GameMode (Config_load b)); [|reflexivity].
      rewrite RegisterGameMode_events_no by reflexivity. reflexivity.
    + rewrite filter_app, Hd by reflexivity. cbn [filter is_Invoke_Tail app].
      rewrite filter_app, Tail_events_no by reflexivity. cbn.
      destruct (config.GameMode (Config_load b)); [|reflexivity].
      now rewrite RegisterGameMode_events_no.
Qed.

End PostLaunchOrder.

(** The theorem on two runs of the sample binary with GameMode enabled:
    the log file appears after 2 s, and the log file appears too late. *)
Lemma Run_post_launch_witness :
  let b := sampleBinary false false true in
  let late := mkWorld calmMain calmRun lateWatch in
  In (Go TaskPostLaunch) (events (Run calmRun [] b)) /\
  cmd_Start_err calmRun = None /\
  pid_ok (Pid calmRun) /\
  filter is_Invoke_RegisterGameMode
         (events (Run_postLaunchTask calmWorld (after (Run calmRun [] b)))) =
  [Invoke (FnRegisterGameMode 4242)] /\
  events (Run_postLaunchTask late (after (Run calmRun [] b))) =
  snd (@RobloxLogFile sampleCollaborators lateWatch "/prefixes/player") ++
  [Log LError "Failed to find Roblox log file"] /\
  result (Run calmRun [] b) = Ok tt.
Proof.
  cbv zeta.
  assert (In (Go TaskPostLaunch)
             (events (Run calmRun [] (sampleBinary false false true)))) as Hgo
    by (vm_compute; tauto).
  assert (pid_ok (Pid calmRun)) as Hpid by (vm_compute; split; [discriminate|reflexivity]).
  pose proof (Run_post_launch calmWorld [] (sampleBinary false false true)
                Hgo eq_refl Hpid) as (Hr & _ & Hok).
  pose proof (Run_post_launch (mkWorld calmMain calmRun lateWatch) []
                (sampleBinary false false true) Hgo eq_refl Hpid) as (_ & _ & Hlate).
  split; [exact Hgo|]. split; [reflexivity|]. split; [exact Hpid|].
  split; [exact (proj1 (proj2 (proj2 Hok)))|].
  split; [exact (proj1 Hlate)|exact Hr].
Defined.

Section ActivityDisabled.

Context {C : Collaborators}.




End ActivityDisabled.


(* ================================================================== *)
(** ** The signal relay *)

Section Relay.

Import relay.

Lemma relay_inv_armed (pid : Z) : relay_inv pid (armed (Some pid)).
Proof. repeat split. Qed.

Lemma relay_inv_step (pid : Z) (h : Host) (a : Action) :
  relay_inv pid h -> relay_inv pid (step h a).
Proof.
  intros [HP Hpc]. destruct a as [s|pid'| |]; cbn [step].
  - destruct (notify h && notified s); [destruct (chan h)|]; split; assumption.
  - rewrite HP. split; assumption.
  - split; assumption.
  - destruct (pc h) eqn:E.
    + destruct (chan h); [|split; [assumption|now rewrite E]].
      destruct Hpc as [Hn Ho]. split; cbn; rewrite ?Ho; auto.
    + destruct Hpc as [Hn Ho]. destruct (ProcessState h).
      * split; cbn; auto.
      * rewrite HP. split; cbn; rewrite ?Ho; auto.
    + destruct Hpc as [Hn [Ho|Ho]]; split; cbn; rewrite ?Ho; auto.
    + split; [assumption|now rewrite E].
    + destruct Hpc.
Qed.

Lemma relay_inv_run (pid : Z) (acts : list Action) (h : Host) :
  relay_inv pid h -> relay_inv pid (run h acts).
Proof.
  revert h. induction acts as [|a acts IH]; intros h H; [exact H|].
  cbn. apply IH. now apply relay_inv_step.
Qed.

Lemma relay_inv_kills (pid : Z) (h : Host) :
  relay_inv pid h ->
  kills h <= 1 /\ (forall p, In (ProcessKill p) (out h) -> p = pid) /\
  (kills h = 1 -> pc h = AtStop \/ pc h = Finished).
Proof.
  intros [_ H]. unfold kills.
  destruct (pc h) eqn:E;
    [destruct H as [_ Ho] | destruct H as [_ Ho] | destruct H as [_ [Ho|Ho]]
    | destruct H as [_ [Ho|Ho]] | destruct H];
    rewrite Ho; cbn;
    (split; [lia|split;
       [intros p Hin; intuition congruence
       |intros Hk; try discriminate Hk; auto]]).
Qed.

(** The relay has finished: nothing it does or receives changes what it
    did. *)
Lemma relay_finished_run (h : Host) (acts : list Action) :
  pc h = Finished -> notify h = false ->
  pc (run h acts) = Finished /\ notify (run h acts) = false /\
  out (run h acts) = out h /\ chan (run h acts) = chan h.
Proof.
  revert h. induction acts as [|a acts IH]; intros h Hpc Hn; [auto|].
  cbn [run fold_left].
  assert (pc (step h a) = Finished /\ notify (step h a) = false /\
          out (step h a) = out h /\ chan (step h a) = chan h) as (H1 & H2 & H3 & H4).
  { destruct a as [s|pid'| |]; cbn [step]; rewrite ?Hn, ?Hpc; cbn; auto.
    destruct (Process h); cbn; auto. }
  destruct (IH (step h a) H1 H2) as (I1 & I2 & I3 & I4).
  unfold run in *. rewrite I1, I2, I3, I4. auto.
Qed.

Lemma relay_run_app (h : Host) (l1 l2 : list Action) :
  run h (l1 ++ l2) = run (run h l1) l2.
Proof. unfold run. apply fold_left_app. Qed.

(** [cmd.ProcessState] is set by the child's exit and by nothing else. *)
Lemma relay_ProcessState_step (h : Host) (a : Action) :
  ProcessState (step h a) = ProcessState h || is_Exited a.
Proof.
  destruct a as [s|pid'| |]; cbn [step is_Exited]; rewrite ?orb_false_r.
  - destruct (notify h && notified s); [destruct (chan h)|]; reflexivity.
  - destruct (Process h); reflexivity.
  - cbn. now rewrite orb_true_r.
  - destruct (pc h); try reflexivity.
    + destruct (chan h); reflexivity.
    + destruct (ProcessState h) eqn:E; cbn; [now rewrite ?E|].
      destruct (Process h); cbn; now rewrite ?E.
Qed.

Lemma relay_ProcessState_run (acts : list Action) (h : Host) :
  ProcessState (run h acts) = ProcessState h || exited acts.
Proof.
  revert h. induction acts as [|a acts IH]; intros h; cbn [run fold_left exited existsb].
  - now rewrite orb_false_r.
  - unfold run in IH. rewrite IH, relay_ProcessState_step.
    unfold exited. now rewrite orb_assoc.
Qed.

(** Past the check, nothing changes the number of kill requests. *)
Lemma relay_settled_step (h : Host) (a : Action) :
  pc h = AtStop \/ pc h = Finished ->
  kills (step h a) = kills h /\ (pc (step h a) = AtStop \/ pc (step h a) = Finished).
Proof.
  intros Hpc. destruct a as [s|pid'| |]; cbn [step].
  - destruct (notify h && notified s); [destruct (chan h)|]; auto.
  - destruct (Process h); auto.
  - auto.
  - destruct Hpc as [E|E]; rewrite E; [|auto].
    unfold kills. cbn. rewrite filter_app. cbn. rewrite app_nil_r. auto.
Qed.

Lemma relay_settled_run (acts : list Action) (h : Host) :
  pc h = AtStop \/ pc h = Finished ->
  kills (run h acts) = kills h /\
  (pc (run h acts) = AtStop \/ pc (run h acts) = Finished).
Proof.
  revert h. induction acts as [|a acts IH]; intros h Hpc; [auto|].
  cbn [run fold_left]. destruct (relay_settled_step h a Hpc) as [Hk Hpc'].
  destruct (IH (step h a) Hpc') as [Hk' Hpc'']. unfold run in *.
  rewrite Hk', Hk. auto.
Qed.

(** Until an interrupt or termination signal is delivered, the relay
    stays blocked in its receive and does nothing. *)
Lemma relay_idle_run (acts : list Action) (h : Host) :
  pc h = AtRecv -> chan h = None -> signalled acts = false ->
  pc (run h acts) = AtRecv /\ chan (run h acts) = None /\
  out (run h acts) = out h.
Proof.
  revert h. induction acts as [|a acts IH]; intros h Hpc Hc Hs; [auto|].
  cbn [signalled existsb] in Hs. apply orb_false_elim in Hs as [Ha Hs].
  cbn [run fold_left].
  assert (pc (step h a) = AtRecv /\ chan (step h a) = None /\
          out (step h a) = out h) as (H1 & H2 & H3).
  { destruct a as [s|pid'| |]; cbn [step is_signal] in *.
    - rewrite Ha, andb_false_r. auto.
    - destruct (Process h); auto.
    - auto.
    - rewrite Hpc, Hc. auto. }
  destruct (IH (step h a) H1 H2 Hs) as (I1 & I2 & I3).
  unfold run in *. rewrite I1, I2, I3. auto.
Qed.

(** A relay that is past its check has executed the check at some point
    of the schedule. *)
Lemma relay_check_point (h0 : Host) (acts : list Action) :
  pc h0 = AtRecv ->
  pc (run h0 acts) = AtStop \/ pc (run h0 acts) = Finished ->
  exists pre post, acts = pre ++ Relay :: post /\ pc (run h0 pre) = AtCheck.
Proof.
  intros H0. induction acts as [|a acts IH] using rev_ind.
  - cbn. rewrite H0. intros [H|H]; discriminate.
  - rewrite relay_run_app. cbn [run fold_left]. fold (run h0 acts).
    set (h := run h0 acts) in *. intros Hpc.
    destruct (pc h) eqn:E.
    + exfalso. destruct a as [s|pid'| |]; cbn [step] in Hpc.
      * destruct (notify h && notified s); [destruct (chan h)|]; cbn in Hpc;
          rewrite ?E in Hpc; destruct Hpc; discriminate.
      * destruct (Process h); cbn in Hpc; rewrite ?E in Hpc;
          destruct Hpc; discriminate.
      * cbn in Hpc. rewrite E in Hpc. destruct Hpc; discriminate.
      * rewrite E in Hpc. destruct (chan h); cbn in Hpc; rewrite ?E in Hpc;
          destruct Hpc; discriminate.
    + destruct a as [s|pid'| |]; cbn [step] in Hpc.
      * exfalso. destruct (notify h && notified s); [destruct (chan h)|];
          cbn in Hpc; rewrite ?E in Hpc; destruct Hpc; discriminate.
      * exfalso. destruct (Process h); cbn in Hpc; rewrite ?E in Hpc;
          destruct Hpc; discriminate.
      * exfalso. cbn in Hpc. rewrite E in Hpc. destruct Hpc; discriminate.
      * exists acts, []. split; [reflexivity|exact E].
    + destruct (IH (or_introl eq_refl)) as (pre & post & -> & Hc).
      exists pre, (post ++ [a]). split; [|exact Hc].
      now rewrite <- app_assoc.
    + destruct (IH (or_intror eq_refl)) as (pre & post & -> & Hc).
      exists pre, (post ++ [a]). split; [|exact Hc].
      now rewrite <- app_assoc.
    + exfalso. destruct a as [s|pid'| |]; cbn [step] in Hpc.
      * destruct (notify h && notified s); [destruct (chan h)|]; cbn in Hpc;
          rewrite ?E in Hpc; destruct Hpc; discriminate.
      * destruct (Process h); cbn in Hpc; rewrite ?E in Hpc;
          destruct Hpc; discriminate.
      * cbn in Hpc. rewrite E in Hpc. destruct Hpc; discriminate.
      * rewrite E in Hpc. destruct Hpc; congruence.
Qed.

(** Once the check is executed, the number of kill requests is settled
    by whether the child had exited before it. *)
Lemma relay_checked (pid : Z) (pre post : list Action) :
  pc (run (armed (Some pid)) pre) = AtCheck ->
  kills (run (armed (Some pid)) (pre ++ Relay :: post)) =
  if exited pre then 0 else 1.
Proof.
  intros E. rewrite relay_run_app. cbn [run fold_left].
  fold (run (armed (Some pid)) pre). fold (run (step (run (armed (Some pid)) pre) Relay) post).
  pose proof (relay_inv_run pid pre _ (relay_inv_armed pid)) as [HP Hpc].
  pose proof (relay_ProcessState_run pre (armed (Some pid))) as HS.
  cbn [armed ProcessState orb] in HS.
  set (h := run (armed (Some pid)) pre) in *.
  rewrite E in Hpc. destruct Hpc as [_ Ho].
  assert (kills (step h Relay) = (if exited pre then 0 else 1) /\
          pc (step h Relay) = AtStop) as [Hk Hs].
  { cbn [step]. rewrite E, HS. unfold kills.
    destruct (exited pre); cbn; [rewrite Ho; auto|].
    rewrite HP. cbn. rewrite Ho. auto. }
  destruct (relay_settled_run post (step h Relay) (or_introl Hs)) as [Hk' _].
  now rewrite Hk'.
Qed.

(** C3.  From the moment the relay is armed with the child process
    started, under every schedule of signals, child exits and relay
    steps: the relay sends at most one kill request, and only to the
    child.  [cmd.ProcessState] is set exactly when the child's exit is
    part of the schedule.  As long as no interrupt or termination signal
    is delivered, the relay does nothing.  A first interrupt or
    termination signal is taken by the relay and not left to the default
    disposition.  Having received it, the relay sends the kill request
    exactly when the child has not yet exited, then stops listening.
    Once it has stopped, every further signal, the same one included, is
    left to the default disposition of the operating system, and the
    relay neither receives it nor sends another kill request.  Over the
    whole schedule: once the relay has executed its check, the number of
    kill requests is one when the child had not exited before the check
    and zero when it had, whatever follows; and a kill request was sent
    only after an interrupt or termination signal and a check before
    which the child had not exited. *)
Theorem relay_kills_once :
  forall (pid : Z) (acts : list Action),
  let h := run (armed (Some pid)) acts in
  kills h <= 1 /\
  (forall p, In (ProcessKill p) (out h) -> p = pid) /\
  ProcessState h = exited acts /\
  (signalled acts = false -> pc h = AtRecv /\ out h = []) /\
  (forall s, pc h = AtRecv -> chan h = None -> notified s = true ->
     let h1 := step (step h (Deliver s)) Relay in
     pc h1 = AtCheck /\ defaulted h1 = defaulted h /\ kills h1 = 0) /\
  (pc h = AtCheck ->
     let h1 := step h Relay in
     pc h1 = AtStop /\
     out h1 = out h ++ (if exited acts then []
                        else [Log LWarn "Killing Roblox"; ProcessKill pid]) /\
     kills h1 = if exited acts then 0 else 1) /\
  (pc h = AtStop ->
     let h1 := step h Relay in
     pc h1 = Finished /\ notify h1 = false /\ kills h1 = kills h) /\
  (pc h = Finished ->
     notify h = false /\
     forall s more,
       let h1 := step h (Deliver s) in
       defaulted h1 = defaulted h ++ [s] /\ chan h1 = chan h /\
       out (run h1 more) = out h /\ kills (run h1 more) = kills h) /\
  (forall pre post,
     acts = pre ++ Relay :: post ->
     pc (run (armed (Some pid)) pre) = AtCheck ->
     kills h = if exited pre then 0 else 1) /\
  (kills h = 1 ->
     exists pre post,
       acts = pre ++ Relay :: post /\
       pc (run (armed (Some pid)) pre) = AtCheck /\
       exited pre = false /\ signalled pre = true).
Proof.
  intros pid acts h.
  pose proof (relay_inv_run pid acts _ (relay_inv_armed pid)) as Hinv.
  fold h in Hinv.
  destruct (relay_inv_kills pid h Hinv) as (Hk & Hp & Hk1).
  pose proof (relay_ProcessState_run acts (armed (Some pid))) as HS.
  cbn [armed ProcessState orb] in HS. fold (armed (Some pid)) in HS. fold h in HS.
  assert (forall pre post, acts = pre ++ Relay :: post ->
            pc (run (armed (Some pid)) pre) = AtCheck ->
            kills h = if exited pre then 0 else 1) as Hchecked.
  { intros pre post -> E. subst h. now apply relay_checked. }
  assert (kills h = 1 ->
          exists pre post, acts = pre ++ Relay :: post /\
            pc (run (armed (Some pid)) pre) = AtCheck /\
            exited pre = false /\ signalled pre = true) as Hsent.
  { intros H1. specialize (Hk1 H1).
    destruct (relay_check_point (armed (Some pid)) acts eq_refl Hk1)
      as (pre & post & Hacts & E).
    exists pre, post. split; [exact Hacts|]. split; [exact E|].
    pose proof (Hchecked pre post Hacts E) as Hc. rewrite H1 in Hc.
    split; [destruct (exited pre); [discriminate|reflexivity]|].
    destruct (signalled pre) eqn:Hs; [reflexivity|].
    destruct (relay_idle_run pre (armed (Some pid)) eq_refl eq_refl Hs) as (E' & _).
    congruence. }
  assert (signalled acts = false -> pc h = AtRecv /\ out h = []) as Hidle.
  { intros Hs.
    destruct (relay_idle_run acts (armed (Some pid)) eq_refl eq_refl Hs)
      as (E & _ & Ho).
    split; [exact E|exact Ho]. }
  destruct Hinv as [HP Hpc].
  split; [exact Hk|]. split; [exact Hp|]. split; [exact HS|].
  split; [exact Hidle|]. rewrite <- HS. clear Hidle HS.
  split; [|split; [|split; [|split; [|split; [exact Hchecked|exact Hsent]]]]];
    clear Hchecked Hsent Hk1; clearbody h.
  - intros s E Hc Hs. rewrite E in Hpc. destruct Hpc as [Hn Ho].
    cbn [step]. rewrite Hn, Hs, Hc. cbn. rewrite E. cbn.
    unfold kills. cbn. rewrite Ho. auto.
  - intros E. rewrite E in Hpc. destruct Hpc as [Hn Ho].
    cbn [step]. rewrite E. unfold kills.
    destruct (ProcessState h); cbn; [rewrite app_nil_r, Ho; auto|].
    rewrite HP. cbn. rewrite Ho. auto.
  - intros E. cbn [step]. rewrite E. cbn. unfold kills. cbn.
    rewrite filter_app. cbn. now rewrite app_nil_r.
  - intros E. rewrite E in Hpc. destruct Hpc as [Hn _].
    split; [exact Hn|]. intros s more. cbn [step]. rewrite Hn. cbn.
    split; [reflexivity|]. split; [reflexivity|].
    match goal with |- context [run ?x more] =>
      destruct (relay_finished_run x more E eq_refl) as (_ & _ & Ho & _) end.
    unfold kills. rewrite Ho. auto.
Qed.

End Relay.

(** The theorem on two runs.  In the first the interrupt arrives twice
    while the child is alive: one kill request, and the second interrupt
    is left to the operating system.  In the second the child exits
    after the relay has received the termination signal and before its
    check: no kill request. *)
Lemma relay_kills_once_witness :
  let h := relay.run (relay.armed (Some 4242%Z)) interruptAlive in
  let g := relay.run (relay.armed (Some 4242%Z)) exitBeforeCheck in
  relay.pc h = relay.Finished /\
  relay.out h = [Log LWarn "Recieved signal"; Log LWarn "Killing Roblox";
                 ProcessKill 4242; SignalStop] /\
  relay.defaulted (relay.step h (relay.Deliver relay.SIGINT)) = [relay.SIGINT] /\
  relay.kills (relay.run (relay.step h (relay.Deliver relay.SIGINT))
                         [relay.Relay; relay.Relay]) = 1 /\
  relay.kills h = 1 /\
  relay.ProcessState g = true /\
  relay.kills g = 0 /\
  relay.out g = [Log LWarn "Recieved signal"; SignalStop].
Proof.
  cbv zeta.
  destruct (relay_kills_once 4242%Z interruptAlive)
    as (_ & _ & _ & _ & _ & _ & _ & H & Ha & _).
  destruct (relay_kills_once 4242%Z exitBeforeCheck)
    as (_ & _ & Hs & _ & _ & _ & _ & _ & Hg & _).
  destruct (H eq_refl) as (_ & H').
  destruct (H' relay.SIGINT [relay.Relay; relay.Relay]) as (Hd & _ & _ & Hk).
  split; [reflexivity|]. split; [reflexivity|]. split; [exact Hd|].
  split; [exact Hk|]. split.
  - exact (Ha [relay.Deliver relay.SIGINT; relay.Relay] [relay.Relay]
              eq_refl eq_refl).
  - split; [exact Hs|]. split; [|reflexivity].
    exact (Hg [relay.Deliver relay.SIGTERM; relay.Relay; relay.Exited]
              [relay.Relay] eq_refl eq_refl).
Defined.
